(** * ritchie-cli: the root command's pre-run and post-run hooks

    A shallow embedding of [pkg/cmd/root.go].  The hooks talk to the
    file system (through [stream.DirCreateChecker]), to the tutorial
    store ([rtutorial.Finder]), to the network (the stable-version
    resolver), to the terminal, and they may end the process with
    [os.Exit].  All of that is made explicit by a small process monad:
    a computation takes the world, and either returns a value or exits
    the process, in both cases with the new world and the list of the
    effects it performed, in order. *)

From Stdlib Require Import String Ascii List ZArith Bool Lia.
From ExtLib Require Import Structures.Monad.
Import ListNotations.
Import MonadNotation.
Local Open Scope string_scope.
Local Open Scope Z_scope.
Local Open Scope monad_scope.

Set Implicit Arguments.

(** ** Go values *)

(** A Go [error] value that is not [nil]; [option error] is a Go
    [error], with [None] for [nil]. *)
Inductive error : Type :=
| errorString (msg : string).

(** A [(T, error)] pair of results, of which Go code reads the first
    only when the second is [nil]. *)
Inductive result (A : Type) : Type :=
| Ok (a : A)
| Err (e : error).
Arguments Ok {A} a.
Arguments Err {A} e.

(** [time.Duration] counts nanoseconds. *)
Definition Duration := Z.

Module time.
Definition Nanosecond : Duration := 1.
Definition Second : Duration := 1000000000 * Nanosecond.
End time.

Definition nl : string := String (ascii_of_nat 10) EmptyString.
Definition dquote : string := String (ascii_of_nat 34) EmptyString.

(** ** The parts of Go's library that the hooks call *)

Module strings.

(** [strings.Contains s substr]: [substr] occurs within [s]. *)
Fixpoint Contains (s substr : string) : bool :=
  if String.prefix substr s then true
  else match s with
       | EmptyString => false
       | String _ rest => Contains rest substr
       end.

Definition isSpace (c : ascii) : bool :=
  let n := nat_of_ascii c in
  (Nat.eqb n 32 || (Nat.leb 9 n && Nat.leb n 13))%bool.

Fixpoint TrimLeft (s : string) : string :=
  match s with
  | EmptyString => EmptyString
  | String c rest => if isSpace c then TrimLeft rest else s
  end.

Fixpoint TrimRight (s : string) : string :=
  match s with
  | EmptyString => EmptyString
  | String c rest =>
      let r := TrimRight rest in
      if (isSpace c && String.eqb r "")%bool then EmptyString
      else String c r
  end.

(** [strings.TrimSpace], on ASCII white space. *)
Definition TrimSpace (s : string) : string := TrimRight (TrimLeft s).

End strings.

Module sliceutil.

(** Modelled from the spec: [sliceutil.Contains] of
    [pkg/slice/sliceutil], which is not among the sources.  The spec has
    it as a pure containment check, true iff the string equals some
    entry of the list. *)
Fixpoint Contains (aa : list string) (s : string) : bool :=
  match aa with
  | [] => false
  | v :: rest => if String.eqb s v then true else Contains rest s
  end.

End sliceutil.

Module path.

(** The elements of a slash-separated path: the text between
    consecutive slashes, empty elements included. *)
Fixpoint split (s : string) : list string :=
  match s with
  | EmptyString => [EmptyString]
  | String c rest =>
      if Ascii.eqb c "/" then EmptyString :: split rest
      else match split rest with
           | seg :: segs => String c seg :: segs
           | [] => [String c EmptyString]
           end
  end.

Definition rooted (s : string) : bool :=
  match s with
  | String c _ => Ascii.eqb c "/"
  | EmptyString => false
  end.

(** The element-by-element pass of [path.Clean].  [out] is the output
    so far, last element first.  Empty and [.] elements are dropped; a
    [..] element removes the element before it, unless there is none
    left to remove, in which case it is kept in a relative path and
    dropped in a rooted one. *)
Fixpoint walk (isRooted : bool) (out : list string) (segs : list string)
  : list string :=
  match segs with
  | [] => out
  | seg :: rest =>
      if String.eqb seg "" then walk isRooted out rest
      else if String.eqb seg "." then walk isRooted out rest
      else if String.eqb seg ".." then
        match out with
        | top :: out' =>
            if String.eqb top ".." then walk isRooted (".." :: out) rest
            else walk isRooted out' rest
        | [] =>
            if isRooted then walk isRooted [] rest
            else walk isRooted [".."] rest
        end
      else walk isRooted (seg :: out) rest
  end.

(** [path.Clean]: the shortest path name equivalent to [p] by purely
    lexical processing. *)
Definition Clean (p : string) : string :=
  if String.eqb p "" then "."
  else
    let body := String.concat "/" (rev (walk (rooted p) [] (split p))) in
    if rooted p then "/" ++ body
    else if String.eqb body "" then "." else body.

(** [path.Join]: the elements from the first non-empty one on,
    separated by slashes, and cleaned; the empty string when all of
    them are empty. *)
Fixpoint Join (elem : list string) : string :=
  match elem with
  | [] => EmptyString
  | e :: rest =>
      if String.eqb e "" then Join rest
      else Clean (String.concat "/" elem)
  end.

End path.

(** ** The process monad *)

(** What the HTTP client hands back for one GET: a transport failure (no
    connection, or no answer within the client's timeout) with the
    client's error, or a response. *)
Inductive HttpOutcome : Type :=
| TransportError (e : error)
| Response (status : Z) (body : string).

(** The effects of the hooks that can be seen from outside, one event a
    call. *)
Inductive Event : Type :=
| EvDirCreate (p : string)
| EvDirExists (p : string)
| EvTutorialFind
| EvHttpGet (url : string) (timeout : Duration)
| EvPrintln (s : string)
| EvPromptWarning (s : string)
| EvPromptInfo (s : string)
| EvRun (commandPath : string).

(** The world a process runs in: the file system, of a type [FS] that
    the directory and tutorial collaborators understand, and the network,
    which answers a GET of a URL under a timeout. *)
Record World (FS : Type) : Type := mkWorld {
  fs : FS;
  net : string -> Duration -> HttpOutcome
}.

(** A computation either returns to its caller or ends the process
    ([os.Exit]); both leave a world and the events performed. *)
Inductive Outcome (FS A : Type) : Type :=
| Returned (a : A) (w : World FS) (tr : list Event)
| Exited (code : Z) (w : World FS) (tr : list Event).
Arguments Returned {FS A} a w tr.
Arguments Exited {FS A} code w tr.

Definition M (FS A : Type) : Type := World FS -> Outcome FS A.

Definition M_ret {FS A : Type} (a : A) : M FS A :=
  fun w => Returned a w [].

Definition M_bind {FS A B : Type} (m : M FS A) (f : A -> M FS B) : M FS B :=
  fun w =>
    match m w with
    | Returned a w1 t1 =>
        match f a w1 with
        | Returned b w2 t2 => Returned b w2 (t1 ++ t2)
        | Exited c w2 t2 => Exited c w2 (t1 ++ t2)
        end
    | Exited c w1 t1 => Exited c w1 t1
    end.

#[global] Instance Monad_M {FS : Type} : Monad (M FS) :=
  {| ret := @M_ret FS; bind := @M_bind FS |}.

Definition emit {FS : Type} (e : Event) : M FS unit :=
  fun w => Returned tt w [e].

(** Observations of an outcome. *)
Definition trace {FS A : Type} (o : Outcome FS A) : list Event :=
  match o with
  | Returned _ _ tr => tr
  | Exited _ _ tr => tr
  end.

Definition world {FS A : Type} (o : Outcome FS A) : World FS :=
  match o with
  | Returned _ w _ => w
  | Exited _ w _ => w
  end.

Definition returned {FS A : Type} (o : Outcome FS A) : option A :=
  match o with
  | Returned a _ _ => Some a
  | Exited _ _ _ => None
  end.

Definition exited {FS A : Type} (o : Outcome FS A) : option Z :=
  match o with
  | Returned _ _ _ => None
  | Exited c _ _ => Some c
  end.

(** ** The collaborators *)

Module os.
Definition Exit {FS A : Type} (code : Z) : M FS A :=
  fun w => Exited code w [].
End os.

Module stream.

(** [stream.DirCreateChecker]: [Create(dir string) error] and
    [Exists(dir string) bool], by what an implementation does to the
    file system.  [Exists] is a query. *)
Record DirCreateChecker (FS : Type) : Type := {
  create : string -> FS -> option error * FS;
  exists_ : string -> FS -> bool
}.

Definition Create {FS : Type} (d : DirCreateChecker FS) (p : string)
  : M FS (option error) :=
  fun w =>
    let (e, fs') := create d p (fs w) in
    Returned e (mkWorld fs' (net w)) [EvDirCreate p].

Definition Exists {FS : Type} (d : DirCreateChecker FS) (p : string)
  : M FS bool :=
  fun w => Returned (exists_ d p (fs w)) w [EvDirExists p].

End stream.

Module rtutorial.

Record TutorialHolder : Type := { Current : string }.

(** [rtutorial.Finder]: [Find() (TutorialHolder, error)]. *)
Record Finder (FS : Type) : Type := {
  find : FS -> result TutorialHolder * FS
}.

Definition Find {FS : Type} (f : Finder FS) : M FS (result TutorialHolder) :=
  fun w =>
    let (r, fs') := find f (fs w) in
    Returned r (mkWorld fs' (net w)) [EvTutorialFind].

End rtutorial.

Module prompt.

(** [pkg/prompt] is not among the sources: the colour functions are a
    parameter, and the printing ones are events. *)
Class Colors : Type := { Yellow : string -> string }.

Definition Warning {FS : Type} (text : string) : M FS unit :=
  emit (EvPromptWarning text).

Definition Info {FS : Type} (text : string) : M FS unit :=
  emit (EvPromptInfo text).

End prompt.

Module fmt.

(** [fmt.Sprintf] for formats whose only verb is [%s] with string
    operands, which is all [root.go] uses.  An operand that is missing
    prints as Go prints it. *)
Fixpoint Sprintf (format : string) (a : list string) : string :=
  match format with
  | EmptyString => EmptyString
  | String c rest =>
      match rest with
      | String d rest' =>
          if (Ascii.eqb c "%" && Ascii.eqb d "s")%bool then
            match a with
            | x :: a' => x ++ Sprintf rest' a'
            | [] => "%!s(MISSING)" ++ Sprintf rest' []
            end
          else String c (Sprintf rest a)
      | EmptyString => String c EmptyString
      end
  end.

(** [fmt.Sprint] of one string operand. *)
Definition Sprint (s : string) : string := s.

(** [fmt.Println] of one string operand: the string and a newline on
    standard output; the event records the operand. *)
Definition Println {FS : Type} (s : string) : M FS unit :=
  emit (EvPrintln s).

End fmt.

Module http.
(** [http.Client], of which the hooks set the timeout only. *)
Record Client : Type := { Timeout : Duration }.
End http.

Module fileutil.
Inductive DefaultService : Type := mkDefaultService.
End fileutil.

Module version.

(** [pkg/version] is not among the sources.  Its messages are
    parameters: the notice for a stable version that differs from the
    running one, the message when there is nothing to announce, and the
    error for a response whose status is not a success. *)
Class Messages : Type := {
  notice : string -> string;
  noNotice : string;
  statusError : Z -> error
}.

Record DefaultVersionResolver : Type := {
  StableVersionUrl : string;
  FileUtilService : fileutil.DefaultService;
  HttpClient : http.Client
}.

(** Modelled from the spec: what [StableVersion] makes of the answer
    to its GET.  The trimmed body of a response is the stable version;
    a transport error or a status that is not a success is an error. *)
Definition decode `{Messages} (o : HttpOutcome) : result string :=
  match o with
  | TransportError e => Err e
  | Response status body =>
      if ((200 <=? status) && (status <? 300))%bool
      then Ok (strings.TrimSpace body)
      else Err (statusError status)
  end.

(** Modelled from the spec: [DefaultVersionResolver.StableVersion],
    one GET of the configured URL under the client's timeout. *)
Definition StableVersion `{Messages} {FS : Type}
    (r : DefaultVersionResolver) : M FS (result string) :=
  fun w =>
    let url := StableVersionUrl r in
    let timeout := http.Timeout (HttpClient r) in
    Returned (decode (net w url timeout)) w [EvHttpGet url timeout].

(** Modelled from the spec: [version.VerifyNewVersion].  When the
    resolution succeeds and the stable version differs from the
    running one, by string comparison, the notice; when they are equal
    or the resolution fails, the message without a notice. *)
Definition VerifyNewVersion `{Messages} {FS : Type}
    (resolve : DefaultVersionResolver) (currentVersion : string)
  : M FS string :=
  r <- StableVersion resolve ;;
  match r with
  | Err _ => ret noNotice
  | Ok stableVersion =>
      if negb (String.eqb currentVersion stableVersion)
      then ret (notice stableVersion)
      else ret noNotice
  end.

End version.

Module cobra.

(** A [cobra.Command], by the one thing the hooks ask of it: its
    command path, the names from the root command down to it,
    separated by spaces. *)
Record Command : Type := { CommandPath : string }.

End cobra.

Definition CommandRunnerFunc (FS : Type) : Type :=
  cobra.Command -> list string -> M FS (option error).

(** The values the Go tool chain provides: [Version] and [BuildDate],
    package variables set by the linker, and [runtime.Version()]. *)
Class Build : Type := {
  Version : string;
  BuildDate : string;
  runtime_Version : string
}.

(** ** [pkg/cmd/root.go] *)

Section cmd.

Context {FS : Type} `{Build} `{prompt.Colors} `{version.Messages}.

Definition latestVersionMsg : string := "Latest available version: %s".
Definition versionMsg : string :=
  "%s" ++ nl ++ "  Build date: %s" ++ nl ++ "  Built with: %s" ++ nl.
Definition versionMsgWithLatestVersion : string :=
  "%s" ++ nl ++ "  %s" ++ nl ++ "  Build date: %s" ++ nl
    ++ "  Built with: %s" ++ nl.
Definition cmdUse : string := "rit".

Definition StableVersionUrl : string :=
  "https://commons-repo.ritchiecli.io/stable.txt".
Definition MsgInit : string :=
  "To start using rit, you need to initialize rit first." ++ nl
    ++ "Command: rit init".

Definition whitelist : list string :=
  [ fmt.Sprint cmdUse;
    fmt.Sprintf "%s help" [cmdUse];
    fmt.Sprintf "%s completion zsh" [cmdUse];
    fmt.Sprintf "%s completion bash" [cmdUse];
    fmt.Sprintf "%s completion fish" [cmdUse];
    fmt.Sprintf "%s completion powershell" [cmdUse];
    fmt.Sprintf "%s init" [cmdUse];
    fmt.Sprintf "%s upgrade" [cmdUse] ].

Definition upgradeWhitelist : list string :=
  [ fmt.Sprint cmdUse ].

(** Modelled from the spec: the constant [tutorialStatusOn], declared
    in another file of the package.  The spec has the value [on] as the
    one that triggers the banner. *)
Definition tutorialStatusOn : string := "on".

Record rootCmd : Type := {
  ritchieHome : string;
  dir : stream.DirCreateChecker FS;
  rt : rtutorial.Finder FS
}.

Definition isWhitelist (whitelist : list string) (cmd : cobra.Command)
  : bool :=
  sliceutil.Contains whitelist (cobra.CommandPath cmd).

Definition isCompleteCmd (cmd : cobra.Command) : bool :=
  strings.Contains (cobra.CommandPath cmd) "__complete".

Definition ritchieIsInitialized (ro : rootCmd) : M FS bool :=
  let commonsRepoPath := path.Join [ritchieHome ro; "repos"; "commons"] in
  stream.Exists (dir ro) commonsRepoPath.

Definition PreRunFunc (ro : rootCmd) : CommandRunnerFunc FS :=
  fun cmd args =>
    err <- stream.Create (dir ro) (ritchieHome ro) ;;
    match err with
    | Some e => ret (Some e)
    | None =>
        if (isWhitelist whitelist cmd || isCompleteCmd cmd)%bool
        then ret None
        else
          initialized <- ritchieIsInitialized ro ;;
          (if negb initialized
           then fmt.Println MsgInit ;; os.Exit 0
           else ret tt) ;;
          ret None
    end.

Definition verifyNewVersion (cmd : cobra.Command) : M FS unit :=
  if isWhitelist upgradeWhitelist cmd then
    let resolver :=
      {| version.StableVersionUrl := StableVersionUrl;
         version.FileUtilService := fileutil.mkDefaultService;
         version.HttpClient := {| http.Timeout := 1 * time.Second |} |} in
    msg <- version.VerifyNewVersion resolver Version ;;
    prompt.Warning msg
  else ret tt.

Definition tutorialRit (tutorialStatus : string) : M FS unit :=
  let tagTutorial := nl ++ "[TUTORIAL]" in
  let MessageTitle := "To initialize the ritchie:" in
  let MessageBody :=
    " " ++ String (ascii_of_nat 226) (String (ascii_of_nat 136)
             (String (ascii_of_nat 153) EmptyString))
      ++ " Run " ++ dquote ++ "rit init" ++ dquote ++ nl in
  if String.eqb tutorialStatus tutorialStatusOn then
    prompt.Info tagTutorial ;;
    prompt.Info MessageTitle ;;
    fmt.Println MessageBody
  else ret tt.

Definition PostRunFunc (ro : rootCmd) : CommandRunnerFunc FS :=
  fun cmd args =>
    verifyNewVersion cmd ;;
    initialized <- ritchieIsInitialized ro ;;
    if negb initialized then
      found <- rtutorial.Find (rt ro) ;;
      match found with
      | Err e => ret (Some e)
      | Ok tutorialHolder =>
          tutorialRit (rtutorial.Current tutorialHolder) ;;
          ret None
      end
    else ret None.

Definition versionFlag : M FS string :=
  let resolver :=
    {| version.StableVersionUrl := StableVersionUrl;
       version.FileUtilService := fileutil.mkDefaultService;
       version.HttpClient := {| http.Timeout := 1 * time.Second |} |} in
  r <- version.StableVersion resolver ;;
  match r with
  | Ok latestVersion =>
      if negb (String.eqb latestVersion Version) then
        let formattedLatestVersionMsg :=
          prompt.Yellow (fmt.Sprintf latestVersionMsg [latestVersion]) in
        ret (fmt.Sprintf versionMsgWithLatestVersion
               [Version; formattedLatestVersionMsg; BuildDate;
                runtime_Version])
      else ret (fmt.Sprintf versionMsg [Version; BuildDate; runtime_Version])
  | Err _ => ret (fmt.Sprintf versionMsg [Version; BuildDate; runtime_Version])
  end.

(** The body of a command is opaque: an action on the file system that
    may fail, recorded as one event. *)
Definition RunE (body : list string -> FS -> option error * FS)
  : CommandRunnerFunc FS :=
  fun cmd args w =>
    let (e, fs') := body args (fs w) in
    Returned e (mkWorld fs' (net w)) [EvRun (cobra.CommandPath cmd)].

(** Modelled from the spec: the Command Lifecycle Controller around one
    command, which in the program is cobra's, not among the sources.  The
    spec has the invocation as the pre-hook, then the body, then the
    post-hook, in that order; the first error ends the invocation and is
    its result.  What cobra does besides (the help and version flags, the
    validation of flags and arguments, a command's own hooks) is not
    part of it. *)
Definition Execute (ro : rootCmd)
    (body : list string -> FS -> option error * FS)
  : CommandRunnerFunc FS :=
  fun cmd args =>
    err <- PreRunFunc ro cmd args ;;
    match err with
    | Some e => ret (Some e)
    | None =>
        err <- RunE body cmd args ;;
        match err with
        | Some e => ret (Some e)
        | None => PostRunFunc ro cmd args
        end
    end.

End cmd.

(** ** A file system to run the hooks on *)

Module Demo.

(** A disk is the list of the directories it holds, whether new
    directories can be made on it, and what the tutorial store
    answers. *)
Record Disk : Type := {
  dirs : list string;
  writable : bool;
  tutorial : result string
}.

Definition hasDir (p : string) (d : Disk) : bool :=
  existsb (String.eqb p) (dirs d).

Definition mkdir (p : string) (d : Disk) : option error * Disk :=
  if writable d then
    (None,
     if hasDir p d then d
     else {| dirs := p :: dirs d; writable := true;
             tutorial := tutorial d |})
  else if hasDir p d then (None, d)
  else (Some (errorString "mkdir: permission denied"), d).


Definition DirManager : stream.DirCreateChecker Disk :=
  {| stream.create := mkdir; stream.exists_ := hasDir |}.

Definition TutorialFinder : rtutorial.Finder Disk :=
  {| rtutorial.find := fun d =>
       (match tutorial d with
        | Ok s => Ok {| rtutorial.Current := s |}
        | Err e => Err e
        end, d) |}.

Definition home : string := "/home/dev/.rit".

Definition ro : rootCmd :=
  {| ritchieHome := home; dir := DirManager; rt := TutorialFinder |}.

#[export] Instance build : Build :=
  {| Version := "dev"; BuildDate := "unknown"; runtime_Version := "go1.14" |}.

#[export] Instance colors : prompt.Colors :=
  {| prompt.Yellow := fun s => s |}.

#[export] Instance messages : version.Messages :=
  {| version.notice := fun v => "Please update rit to version " ++ v;
     version.noNotice := "";
     version.statusError := fun _ => errorString "stable version: bad status" |}.

(** Three networks: one that times out, one whose server refuses, one
    that publishes a stable version. *)
Definition offline : string -> Duration -> HttpOutcome :=
  fun _ _ => TransportError (errorString "context deadline exceeded").

Definition refusing : string -> Duration -> HttpOutcome :=
  fun _ _ => Response 503 "Service Unavailable".

Definition publishing (v : string) : string -> Duration -> HttpOutcome :=
  fun _ _ => Response 200 (v ++ nl).

(** Disks: a fresh one, one that cannot be written to, one on which
    the tool has been initialized. *)
Definition fresh : Disk :=
  {| dirs := ["/home/dev"]; writable := true; tutorial := Ok "on" |}.

Definition readonly : Disk :=
  {| dirs := ["/home/dev"]; writable := false; tutorial := Ok "on" |}.

Definition initialized : Disk :=
  {| dirs := ["/home/dev/.rit/repos/commons"; "/home/dev/.rit"; "/home/dev"];
     writable := true; tutorial := Ok "on" |}.

Definition broken : Disk :=
  {| dirs := ["/home/dev/.rit"; "/home/dev"]; writable := true;
     tutorial := Err (errorString "tutorial.json: unexpected end of input") |}.


(** Commands: the bare root, [init], a completion query, and one that
    is not exempt from the gate. *)
Definition cmdRoot : cobra.Command := {| cobra.CommandPath := "rit" |}.
Definition cmdInit : cobra.Command := {| cobra.CommandPath := "rit init" |}.
Definition cmdComplete : cobra.Command :=
  {| cobra.CommandPath := "rit __complete delete" |}.
Definition cmdDelete : cobra.Command :=
  {| cobra.CommandPath := "rit delete repo" |}.

(** Command bodies: one that does nothing, and one that deletes the
    commons repository. *)
Definition noop (_ : list string) (d : Disk) : option error * Disk :=
  (None, d).


End Demo.

(** ** The notions the properties are stated with *)

Section Notions.

Context {FS : Type}.

(** The marker of an initialized tool, as a path. *)
Definition commonsRepoPath (ro : rootCmd (FS:=FS)) : string :=
  path.Join [ritchieHome ro; "repos"; "commons"].

(** The marker is present on the file system [f]. *)
Definition initializedOn (ro : rootCmd) (f : FS) : bool :=
  stream.exists_ (dir ro) (commonsRepoPath ro) f.

(** [sub] occurs in [s]. *)
Definition hasSubstring (s sub : string) : Prop :=
  exists a b, s = a ++ sub ++ b.

(** A command is exempt from the initialization gate when its path is
    in the init-whitelist or is a completion invocation. *)
Definition exempt (cmd : cobra.Command) : Prop :=
  In (cobra.CommandPath cmd) whitelist
  \/ hasSubstring (cobra.CommandPath cmd) "__complete".

(** The resolver that [verifyNewVersion] and [versionFlag] build. *)
Definition defaultResolver : version.DefaultVersionResolver :=
  {| version.StableVersionUrl := StableVersionUrl;
     version.FileUtilService := fileutil.mkDefaultService;
     version.HttpClient := {| http.Timeout := 1 * time.Second |} |}.

(** A fetch that fails: a transport error (a timeout is one), or a
    response whose status is not a success. *)
Definition fetchFails (o : HttpOutcome) : Prop :=
  match o with
  | TransportError _ => True
  | Response status _ => ~ (200 <= status < 300)
  end.

(** The three lines of the tutorial banner. *)
Definition tutorialBanner : list Event :=
  [ EvPromptInfo (nl ++ "[TUTORIAL]");
    EvPromptInfo "To initialize the ritchie:";
    EvPrintln (" " ++ String (ascii_of_nat 226) (String (ascii_of_nat 136)
                        (String (ascii_of_nat 153) EmptyString))
                 ++ " Run " ++ dquote ++ "rit init" ++ dquote ++ nl) ].

(** An element of a clean path: not empty, without a slash, and
    neither [.] nor [..]. *)
Definition plainName (seg : string) : Prop :=
  seg <> "" /\ seg <> "." /\ seg <> ".." /\ path.split seg = [seg].

End Notions.

(** ** Go's library functions *)

Lemma append_nil_r (s : string) : s ++ "" = s.
Proof. induction s as [|c s IH]; simpl; [reflexivity | now rewrite IH]. Qed.

Lemma append_assoc (a b c : string) : (a ++ b) ++ c = a ++ (b ++ c).
Proof. induction a as [|x a IH]; simpl; [reflexivity | now rewrite IH]. Qed.

Lemma prefix_iff (sub s : string) :
  String.prefix sub s = true <-> exists b, s = sub ++ b.
Proof.
  revert s. induction sub as [|c sub IH]; intros s; simpl.
  - split; [intros _; now exists s | intros _; now destruct s].
  - destruct s as [|d s].
    + split; [discriminate | intros [b Hb]; discriminate].
    + simpl. destruct (ascii_dec c d) as [->|Hcd].
      * rewrite IH. split; intros [b Hb]; exists b; [now rewrite Hb | now inversion Hb].
      * split; [discriminate | intros [b Hb]; inversion Hb; congruence].
Qed.

(** [strings.Contains] decides the occurrence of a substring. *)
Lemma Contains_unfold (s sub : string) :
  strings.Contains s sub =
  if String.prefix sub s then true
  else match s with
       | EmptyString => false
       | String _ rest => strings.Contains rest sub
       end.
Proof. destruct s; reflexivity. Qed.

Lemma Contains_iff (s sub : string) :
  strings.Contains s sub = true <-> hasSubstring s sub.
Proof.
  unfold hasSubstring. induction s as [|c s IH];
    rewrite Contains_unfold;
    match goal with |- context [String.prefix ?x ?y] =>
      destruct (String.prefix x y) eqn:Hp end.
  - split; [intros _ | reflexivity].
    apply prefix_iff in Hp. destruct Hp as [b Hb]. now exists "", b.
  - split; [discriminate |]. intros (a & b & Hab).
    destruct a; [| discriminate]. simpl in Hab.
    assert (String.prefix sub "" = true) by (apply prefix_iff; now exists b).
    congruence.
  - split; [intros _ | reflexivity].
    apply prefix_iff in Hp. destruct Hp as [b Hb]. now exists "", b.
  - rewrite IH. split.
    + intros (a & b & Hab). exists (String c a), b. simpl. now rewrite Hab.
    + intros (a & b & Hab). destruct a as [|x a].
      * simpl in Hab.
        assert (String.prefix sub (String c s) = true)
          by (apply prefix_iff; now exists b).
        congruence.
      * simpl in Hab. inversion Hab. now exists a, b.
Qed.

(** [sliceutil.Contains] decides membership. *)
Lemma sliceutil_Contains_iff (aa : list string) (s : string) :
  sliceutil.Contains aa s = true <-> In s aa.
Proof.
  induction aa as [|v aa IH]; simpl.
  - split; [discriminate | tauto].
  - destruct (String.eqb_spec s v) as [->|Hne].
    + split; auto.
    + rewrite IH. split; [auto | intros [Heq|Hin]; [congruence | assumption]].
Qed.

(** *** [path.Join] on a clean rooted directory *)

Lemma split_nonempty (s : string) : path.split s <> [].
Proof.
  induction s as [|c s IH]; simpl; [discriminate |].
  destruct (Ascii.eqb c "/"); [discriminate |].
  destruct (path.split s); [contradiction | discriminate].
Qed.

Lemma split_append (seg rest : string) :
  path.split seg = [seg] ->
  path.split (seg ++ "/" ++ rest) = seg :: path.split rest.
Proof.
  induction seg as [|c seg IH]; intros Hseg.
  - reflexivity.
  - simpl in Hseg |- *. destruct (Ascii.eqb c "/").
    + discriminate.
    + destruct (path.split seg) as [|x xs] eqn:Hs.
      * now destruct (split_nonempty seg).
      * injection Hseg as Hx Hxs. subst x xs.
        specialize (IH eq_refl). simpl in IH. now rewrite IH.
Qed.

Lemma split_concat (segs : list string) :
  segs <> [] ->
  Forall plainName segs ->
  path.split (String.concat "/" segs) = segs.
Proof.
  induction segs as [|x segs IH]; intros Hne Hall; [contradiction |].
  inversion Hall as [|? ? (_ & _ & _ & Hx) Hrest]; subst.
  destruct segs as [|y segs]; [exact Hx |].
  change (String.concat "/" (x :: y :: segs))
    with (x ++ "/" ++ String.concat "/" (y :: segs)).
  rewrite split_append by assumption.
  now rewrite IH.
Qed.

Lemma concat_app (a b : list string) :
  a <> [] -> b <> [] ->
  String.concat "/" (a ++ b)%list = String.concat "/" a ++ "/" ++ String.concat "/" b.
Proof.
  induction a as [|x a IH]; intros Ha Hb; [contradiction |].
  destruct a as [|y a].
  - destruct b; [contradiction | reflexivity].
  - change (String.concat "/" ((x :: y :: a) ++ b)%list)
      with (x ++ "/" ++ String.concat "/" ((y :: a) ++ b)%list).
    rewrite IH by (assumption || discriminate).
    change (String.concat "/" (x :: y :: a))
      with (x ++ "/" ++ String.concat "/" (y :: a)).
    now rewrite !append_assoc.
Qed.

Lemma walk_plain (r : bool) (segs out : list string) :
  Forall plainName segs ->
  path.walk r out segs = (rev segs ++ out)%list.
Proof.
  revert out. induction segs as [|x segs IH]; intros out Hall; [reflexivity |].
  inversion Hall as [|? ? (H0 & H1 & H2 & _) Hrest]; subst.
  simpl.
  destruct (String.eqb_spec x ""); [contradiction |].
  destruct (String.eqb_spec x "."); [contradiction |].
  destruct (String.eqb_spec x ".."); [contradiction |].
  rewrite IH by assumption. now rewrite <- app_assoc.
Qed.

Lemma Clean_rooted (segs : list string) :
  segs <> [] ->
  Forall plainName segs ->
  path.Clean ("/" ++ String.concat "/" segs) = "/" ++ String.concat "/" segs.
Proof.
  intros Hne Hall. unfold path.Clean.
  change (path.rooted ("/" ++ String.concat "/" segs)) with true.
  change (("/" ++ String.concat "/" segs =? "")%string) with false.
  cbv iota.
  change (path.split ("/" ++ String.concat "/" segs))
    with ("" :: path.split (String.concat "/" segs)).
  rewrite split_concat by assumption.
  change (path.walk true [] ("" :: segs)) with (path.walk true [] segs).
  rewrite walk_plain by assumption.
  now rewrite app_nil_r, rev_involutive.
Qed.

(** On a home directory that is a clean rooted path, the marker's path
    is the home directory followed by [/repos/commons]. *)
Lemma Join_home (segs : list string) :
  segs <> [] ->
  Forall plainName segs ->
  path.Join ["/" ++ String.concat "/" segs; "repos"; "commons"]
  = ("/" ++ String.concat "/" segs) ++ "/repos/commons".
Proof.
  intros Hne Hall.
  change (path.Join ["/" ++ String.concat "/" segs; "repos"; "commons"])
    with (path.Clean (("/" ++ String.concat "/" segs) ++ "/repos/commons")).
  assert (Hplain : Forall plainName (segs ++ ["repos"; "commons"])%list).
  { apply Forall_app. split; [assumption |].
    repeat constructor; discriminate. }
  assert (Hcat : ("/" ++ String.concat "/" segs) ++ "/repos/commons"
                 = "/" ++ String.concat "/" (segs ++ ["repos"; "commons"])%list).
  { rewrite concat_app by (assumption || discriminate).
    now rewrite append_assoc. }
  rewrite Hcat. apply Clean_rooted; [| assumption].
  destruct segs; [contradiction | discriminate].
Qed.

(** ** The hooks, run *)

Arguments isWhitelist : simpl never.
Arguments isCompleteCmd : simpl never.
Arguments initializedOn : simpl never.
Arguments commonsRepoPath : simpl never.
Arguments path.Join : simpl never.
Arguments fmt.Sprintf : simpl never.
Arguments Z.mul : simpl never.

(** An event that is not in a trace whose events are all in view. *)
Ltac absent :=
  let Hin := fresh "Hin" in
  intros Hin; simpl in Hin;
  repeat (destruct Hin as [Hin | Hin]; [discriminate |]);
  exact Hin.

Section Hooks.

Context {FS : Type} `{Build} `{prompt.Colors} `{version.Messages}.

Implicit Types (ro : rootCmd (FS:=FS)) (cmd : cobra.Command)
  (args : list string) (w : World FS).

Lemma isWhitelist_iff (l : list string) cmd :
  isWhitelist l cmd = true <-> In (cobra.CommandPath cmd) l.
Proof. apply sliceutil_Contains_iff. Qed.

Lemma isCompleteCmd_iff cmd :
  isCompleteCmd cmd = true <-> hasSubstring (cobra.CommandPath cmd) "__complete".
Proof. apply Contains_iff. Qed.

Lemma exempt_iff cmd :
  (isWhitelist whitelist cmd || isCompleteCmd cmd)%bool = true <-> exempt cmd.
Proof.
  unfold exempt. rewrite orb_true_iff, isWhitelist_iff, isCompleteCmd_iff.
  reflexivity.
Qed.

Lemma not_exempt_iff cmd :
  (isWhitelist whitelist cmd || isCompleteCmd cmd)%bool = false <-> ~ exempt cmd.
Proof.
  rewrite <- exempt_iff.
  destruct (isWhitelist whitelist cmd || isCompleteCmd cmd)%bool;
    split; congruence.
Qed.

Lemma upgradeWhitelist_iff cmd :
  isWhitelist upgradeWhitelist cmd = true <-> cobra.CommandPath cmd = cmdUse.
Proof.
  rewrite isWhitelist_iff. simpl. unfold fmt.Sprint.
  split; [intros [Heq|[]]; now symmetry | intros ->; now left].
Qed.

Lemma ritchieIsInitialized_run ro w :
  ritchieIsInitialized ro w
  = Returned (initializedOn ro (fs w)) w [EvDirExists (commonsRepoPath ro)].
Proof. reflexivity. Qed.

(** The pre-hook, case by case. *)
Lemma PreRunFunc_run ro cmd args w :
  PreRunFunc ro cmd args w =
  let home := ritchieHome ro in
  let w' := mkWorld (snd (stream.create (dir ro) home (fs w))) (net w) in
  match fst (stream.create (dir ro) home (fs w)) with
  | Some e => Returned (Some e) w' [EvDirCreate home]
  | None =>
      if (isWhitelist whitelist cmd || isCompleteCmd cmd)%bool
      then Returned None w' [EvDirCreate home]
      else if initializedOn ro (fs w')
      then Returned None w' [EvDirCreate home; EvDirExists (commonsRepoPath ro)]
      else Exited 0 w' [EvDirCreate home; EvDirExists (commonsRepoPath ro);
                        EvPrintln MsgInit]
  end.
Proof.
  unfold PreRunFunc. cbn. unfold M_bind, stream.Create.
  destruct (stream.create (dir ro) (ritchieHome ro) (fs w)) as [[e|] f']; cbn.
  - reflexivity.
  - destruct (isWhitelist whitelist cmd || isCompleteCmd cmd)%bool; cbn.
    + reflexivity.
    + change (stream.exists_ (dir ro)
                (path.Join [ritchieHome ro; "repos"; "commons"]) f')
        with (initializedOn ro f').
      destruct (initializedOn ro f'); reflexivity.
Qed.

(** A command that is exempt from the gate: the pre-hook ensures the
    home directory, and does nothing else. *)
Lemma PreRunFunc_exempt ro cmd args w :
  exempt cmd ->
  PreRunFunc ro cmd args w
  = Returned (fst (stream.create (dir ro) (ritchieHome ro) (fs w)))
      (mkWorld (snd (stream.create (dir ro) (ritchieHome ro) (fs w))) (net w))
      [EvDirCreate (ritchieHome ro)].
Proof.
  intros Hex. apply exempt_iff in Hex. rewrite PreRunFunc_run. cbn zeta.
  rewrite Hex.
  now destruct (fst (stream.create (dir ro) (ritchieHome ro) (fs w))).
Qed.

(** C1.  For a command whose path is in the init-whitelist or contains
    the completion marker [__complete], the pre-hook, once the home
    directory has been ensured, returns success ([nil]); its only effect
    is the creation of the home directory: the initialization check is
    not called and the process is not exited. *)
Theorem C1_exempt_command_proceeds ro cmd args w (fs' : FS) :
  In (cobra.CommandPath cmd) whitelist
    \/ hasSubstring (cobra.CommandPath cmd) "__complete" ->
  stream.create (dir ro) (ritchieHome ro) (fs w) = (None, fs') ->
  PreRunFunc ro cmd args w
    = Returned None (mkWorld fs' (net w)) [EvDirCreate (ritchieHome ro)]
  /\ (forall p, ~ In (EvDirExists p) (trace (PreRunFunc ro cmd args w)))
  /\ exited (PreRunFunc ro cmd args w) = None.
Proof.
  intros Hex Hcreate.
  rewrite (PreRunFunc_exempt ro args w Hex), Hcreate. cbn.
  repeat split. intros p [Hp | []]. discriminate.
Qed.

(** *** The post-hook *)

Lemma StableVersion_run (r : version.DefaultVersionResolver) w :
  version.StableVersion r w
  = Returned
      (version.decode
         (net w (version.StableVersionUrl r)
            (http.Timeout (version.HttpClient r))))
      w
      [EvHttpGet (version.StableVersionUrl r)
         (http.Timeout (version.HttpClient r))].
Proof. reflexivity. Qed.

Lemma VerifyNewVersion_run (r : version.DefaultVersionResolver)
    (currentVersion : string) w :
  version.VerifyNewVersion r currentVersion w
  = Returned
      match version.decode
              (net w (version.StableVersionUrl r)
                 (http.Timeout (version.HttpClient r))) with
      | Ok stableVersion =>
          if String.eqb currentVersion stableVersion
          then version.noNotice
          else version.notice stableVersion
      | Err _ => version.noNotice
      end
      w
      [EvHttpGet (version.StableVersionUrl r)
         (http.Timeout (version.HttpClient r))].
Proof.
  unfold version.VerifyNewVersion. cbn. unfold M_bind.
  destruct (version.decode _) as [v|e]; [| reflexivity].
  now destruct (String.eqb currentVersion v).
Qed.

(** The message [verifyNewVersion] hands to [prompt.Warning]. *)
Lemma verifyNewVersion_run cmd w :
  verifyNewVersion cmd w
  = Returned tt w
      (if isWhitelist upgradeWhitelist cmd
       then [EvHttpGet StableVersionUrl (1 * time.Second);
             EvPromptWarning
               match version.decode
                       (net w StableVersionUrl (1 * time.Second)) with
               | Ok stableVersion =>
                   if String.eqb Version stableVersion
                   then version.noNotice
                   else version.notice stableVersion
               | Err _ => version.noNotice
               end]
       else []).
Proof.
  unfold verifyNewVersion.
  destruct (isWhitelist upgradeWhitelist cmd); [| reflexivity].
  cbn [bind ret Monad_M]. unfold M_bind.
  now rewrite VerifyNewVersion_run.
Qed.

Lemma tutorialRit_run (tutorialStatus : string) w :
  tutorialRit tutorialStatus w
  = Returned tt w
      (if String.eqb tutorialStatus tutorialStatusOn
       then tutorialBanner else []).
Proof.
  unfold tutorialRit. cbv zeta.
  now destruct (String.eqb tutorialStatus tutorialStatusOn).
Qed.

(** The post-hook, case by case. *)
Lemma PostRunFunc_run ro cmd args w :
  PostRunFunc ro cmd args w =
  let tv := trace (verifyNewVersion cmd w) in
  if initializedOn ro (fs w)
  then Returned None w (tv ++ [EvDirExists (commonsRepoPath ro)])
  else
    let w' := mkWorld (snd (rtutorial.find (rt ro) (fs w))) (net w) in
    match fst (rtutorial.find (rt ro) (fs w)) with
    | Err e =>
        Returned (Some e) w'
          (tv ++ [EvDirExists (commonsRepoPath ro); EvTutorialFind])
    | Ok tutorialHolder =>
        Returned None w'
          (tv ++ [EvDirExists (commonsRepoPath ro); EvTutorialFind]
             ++ (if String.eqb (rtutorial.Current tutorialHolder)
                      tutorialStatusOn
                 then tutorialBanner else []))
    end.
Proof.
  unfold PostRunFunc. cbn [bind ret Monad_M]. unfold M_bind.
  rewrite verifyNewVersion_run, ritchieIsInitialized_run.
  cbn [trace negb]. destruct (initializedOn ro (fs w)); cbn [negb].
  - unfold M_ret. now rewrite app_nil_r.
  - unfold rtutorial.Find.
    destruct (rtutorial.find (rt ro) (fs w)) as [[h|e] f']; cbn [fst snd].
    + rewrite tutorialRit_run. unfold M_ret.
      now rewrite app_nil_r.
    + unfold M_ret. now rewrite app_nil_r.
Qed.

(** *** One invocation *)

Lemma Execute_run ro (body : list string -> FS -> option error * FS)
    cmd args w :
  Execute ro body cmd args w =
  match PreRunFunc ro cmd args w with
  | Exited c w1 t1 => Exited c w1 t1
  | Returned (Some e) w1 t1 => Returned (Some e) w1 t1
  | Returned None w1 t1 =>
      let w2 := mkWorld (snd (body args (fs w1))) (net w1) in
      let t2 := (t1 ++ [EvRun (cobra.CommandPath cmd)])%list in
      match fst (body args (fs w1)) with
      | Some e => Returned (Some e) w2 t2
      | None =>
          match PostRunFunc ro cmd args w2 with
          | Returned r w3 t3 => Returned r w3 (t2 ++ t3)
          | Exited c w3 t3 => Exited c w3 (t2 ++ t3)
          end
      end
  end.
Proof.
  unfold Execute. cbn [bind ret Monad_M]. unfold M_bind at 1.
  destruct (PreRunFunc ro cmd args w) as [[e|] w1 t1 | c w1 t1].
  - unfold M_ret. now rewrite app_nil_r.
  - unfold M_bind, RunE.
    destruct (body args (fs w1)) as [[e|] f2]; cbn [fst snd].
    + unfold M_ret. now rewrite app_nil_r.
    + destruct (PostRunFunc ro cmd args _);
        now rewrite <- app_assoc.
  - reflexivity.
Qed.



(** C2, as amended.  For a command that is not exempt from the gate,
    when the creation of the home directory succeeds and the marker
    directory is absent, the pre-hook prints the init instruction and
    ends the process with status 0; the body is not invoked. *)
Theorem C2_uninitialized_command_is_blocked ro
    (body : list string -> FS -> option error * FS) cmd args w (fs' : FS) :
  ~ In (cobra.CommandPath cmd) whitelist ->
  ~ hasSubstring (cobra.CommandPath cmd) "__complete" ->
  stream.create (dir ro) (ritchieHome ro) (fs w) = (None, fs') ->
  initializedOn ro fs' = false ->
  PreRunFunc ro cmd args w
    = Exited 0 (mkWorld fs' (net w))
        [EvDirCreate (ritchieHome ro); EvDirExists (commonsRepoPath ro);
         EvPrintln MsgInit]
  /\ Execute ro body cmd args w = PreRunFunc ro cmd args w
  /\ forall p, ~ In (EvRun p) (trace (Execute ro body cmd args w)).
Proof.
  intros Hw Hc Hcreate Hinit.
  assert (Hex : (isWhitelist whitelist cmd || isCompleteCmd cmd)%bool = false).
  { apply not_exempt_iff. unfold exempt. tauto. }
  assert (Hpre : PreRunFunc ro cmd args w
                 = Exited 0 (mkWorld fs' (net w))
                     [EvDirCreate (ritchieHome ro);
                      EvDirExists (commonsRepoPath ro); EvPrintln MsgInit]).
  { rewrite PreRunFunc_run. cbn zeta. rewrite Hcreate, Hex. cbn [fst snd fs].
    now rewrite Hinit. }
  split; [exact Hpre |].
  rewrite Execute_run, Hpre. split; [reflexivity |].
  cbn [trace]. intros p Hin. simpl in Hin.
  repeat (destruct Hin as [Hin | Hin]; [discriminate |]). exact Hin.
Qed.

(** C3.  For every command the pre-hook's first effect is the creation
    of the home directory.  When the creation fails, the pre-hook
    returns that error and has done nothing else: the outcome does not
    depend on the command, the initialization check is not called, and
    the invocation ends with that error before the body. *)
Theorem C3_home_directory_comes_first ro
    (body : list string -> FS -> option error * FS) cmd args w :
  hd_error (trace (PreRunFunc ro cmd args w))
    = Some (EvDirCreate (ritchieHome ro))
  /\ forall (e : error) (fs' : FS),
       stream.create (dir ro) (ritchieHome ro) (fs w) = (Some e, fs') ->
       PreRunFunc ro cmd args w
         = Returned (Some e) (mkWorld fs' (net w))
             [EvDirCreate (ritchieHome ro)]
       /\ Execute ro body cmd args w
         = Returned (Some e) (mkWorld fs' (net w))
             [EvDirCreate (ritchieHome ro)].
Proof.
  split.
  - rewrite PreRunFunc_run. cbn zeta.
    destruct (fst (stream.create (dir ro) (ritchieHome ro) (fs w)));
      [reflexivity |].
    destruct (isWhitelist whitelist cmd || isCompleteCmd cmd)%bool;
      [reflexivity |].
    now destruct (initializedOn ro _).
  - intros e fs' Hcreate.
    assert (Hpre : PreRunFunc ro cmd args w
                   = Returned (Some e) (mkWorld fs' (net w))
                       [EvDirCreate (ritchieHome ro)]).
    { rewrite PreRunFunc_run. cbn zeta. now rewrite Hcreate. }
    split; [exact Hpre |]. now rewrite Execute_run, Hpre.
Qed.

(** C4.  [ritchieIsInitialized] returns what the directory checker
    answers for the path joined from the home directory, [repos] and
    [commons], which on a clean rooted home directory is that directory
    followed by [/repos/commons].  It asks nothing else and leaves the
    world as it was, so asking again gives the same outcome. *)
Theorem C4_initialized_iff_marker_exists ro w :
  ritchieIsInitialized ro w
    = Returned
        (stream.exists_ (dir ro)
           (path.Join [ritchieHome ro; "repos"; "commons"]) (fs w))
        w
        [EvDirExists (path.Join [ritchieHome ro; "repos"; "commons"])]
  /\ (forall segs : list string,
        segs <> [] -> Forall plainName segs ->
        ritchieHome ro = "/" ++ String.concat "/" segs ->
        path.Join [ritchieHome ro; "repos"; "commons"]
        = ritchieHome ro ++ "/repos/commons")
  /\ ritchieIsInitialized ro (world (ritchieIsInitialized ro w))
     = ritchieIsInitialized ro w.
Proof.
  split; [reflexivity |]. split; [| reflexivity].
  intros segs Hne Hall ->. now apply Join_home.
Qed.

(** *** The version notice *)

Lemma no_version_check cmd w :
  cobra.CommandPath cmd <> cmdUse ->
  verifyNewVersion cmd w = Returned tt w [].
Proof.
  intros Hne. rewrite verifyNewVersion_run.
  destruct (isWhitelist upgradeWhitelist cmd) eqn:Hw; [| reflexivity].
  apply upgradeWhitelist_iff in Hw. contradiction.
Qed.

Lemma PostRunFunc_trace ro cmd args w :
  exists rest,
    trace (PostRunFunc ro cmd args w)
    = (trace (verifyNewVersion cmd w)
         ++ EvDirExists (commonsRepoPath ro) :: rest)%list
    /\ forall url t, ~ In (EvHttpGet url t) rest.
Proof.
  rewrite PostRunFunc_run. cbn zeta.
  destruct (initializedOn ro (fs w)).
  - exists []. split; [reflexivity | intros ? ? []].
  - destruct (fst (rtutorial.find (rt ro) (fs w))) as [h|e].
    + eexists. split; [reflexivity |].
      intros url t Hin.
      destruct (String.eqb (rtutorial.Current h) tutorialStatusOn);
        simpl in Hin;
        repeat (destruct Hin as [Hin | Hin]; [discriminate |]); exact Hin.
    + eexists. split; [reflexivity |].
      intros url t [Hin | []]. discriminate.
Qed.

(** C5.  The upgrade whitelist has the bare root path as its single
    entry.  For that path the post-hook fetches the stable version, with
    the one-second client; for any other path [verifyNewVersion] does
    nothing at all, and the post-hook makes no request and prints no
    warning. *)
Theorem C5_version_check_on_bare_root_only ro cmd args w :
  upgradeWhitelist = [cmdUse]
  /\ (cobra.CommandPath cmd = cmdUse ->
      In (EvHttpGet StableVersionUrl (1 * time.Second))
         (trace (PostRunFunc ro cmd args w)))
  /\ (cobra.CommandPath cmd <> cmdUse ->
      verifyNewVersion cmd w = Returned tt w []
      /\ (forall url t,
            ~ In (EvHttpGet url t) (trace (PostRunFunc ro cmd args w)))
      /\ (forall s,
            ~ In (EvPromptWarning s) (trace (PostRunFunc ro cmd args w)))).
Proof.
  split; [reflexivity |]. split.
  - intros Hroot. apply upgradeWhitelist_iff in Hroot.
    destruct (PostRunFunc_trace ro cmd args w) as (rest & -> & _).
    rewrite verifyNewVersion_run, Hroot. cbn [trace]. now left.
  - intros Hne. split; [now apply no_version_check |].
    rewrite PostRunFunc_run. cbn zeta.
    rewrite no_version_check by assumption. cbn [trace app].
    destruct (initializedOn ro (fs w)).
    + split; intros x; [intros t|]; intros [Hin | []]; discriminate.
    + destruct (fst (rtutorial.find (rt ro) (fs w))) as [h|e].
      * destruct (String.eqb (rtutorial.Current h) tutorialStatusOn);
          split; intros x; [intros t| |intros t|]; intros Hin;
          simpl in Hin;
          repeat (destruct Hin as [Hin | Hin]; [discriminate |]);
          exact Hin.
      * split; intros x; [intros t|]; intros Hin; simpl in Hin;
          repeat (destruct Hin as [Hin | Hin]; [discriminate |]);
          exact Hin.
Qed.

Lemma decode_fails (o : HttpOutcome) :
  fetchFails o -> exists e, version.decode o = Err e.
Proof.
  destruct o as [e | status body]; simpl; intros Hf.
  - now exists e.
  - destruct (200 <=? status) eqn:Hlo; cbn [andb].
    + destruct (status <? 300) eqn:Hhi.
      * apply Z.leb_le in Hlo. apply Z.ltb_lt in Hhi. lia.
      * eexists. reflexivity.
    + eexists. reflexivity.
Qed.

(** C6.  The error the post-hook returns does not depend on what the
    network answers to the version check, and the post-hook never ends
    the process.  When the fetch fails (a transport error such as a
    timeout or a refused connection, or a status that is not a
    success), [VerifyNewVersion] gives the message without a notice, and
    that is what the bare root command hands to [prompt.Warning]. *)
Theorem C6_version_failure_is_not_surfaced ro cmd args (f : FS)
    (net1 net2 : string -> Duration -> HttpOutcome) :
  returned (PostRunFunc ro cmd args (mkWorld f net1))
    = returned (PostRunFunc ro cmd args (mkWorld f net2))
  /\ exited (PostRunFunc ro cmd args (mkWorld f net1)) = None
  /\ (fetchFails (net1 StableVersionUrl (1 * time.Second)) ->
      version.VerifyNewVersion defaultResolver Version (mkWorld f net1)
        = Returned version.noNotice (mkWorld f net1)
            [EvHttpGet StableVersionUrl (1 * time.Second)]
      /\ verifyNewVersion {| cobra.CommandPath := cmdUse |} (mkWorld f net1)
        = Returned tt (mkWorld f net1)
            [EvHttpGet StableVersionUrl (1 * time.Second);
             EvPromptWarning version.noNotice]).
Proof.
  split; [| split].
  - rewrite !PostRunFunc_run. cbn zeta. cbn [fs].
    destruct (initializedOn ro f); [reflexivity |].
    now destruct (fst (rtutorial.find (rt ro) f)).
  - rewrite PostRunFunc_run. cbn zeta. cbn [fs].
    destruct (initializedOn ro f); [reflexivity |].
    now destruct (fst (rtutorial.find (rt ro) f)).
  - intros Hf. apply decode_fails in Hf. destruct Hf as [e He].
    rewrite VerifyNewVersion_run, verifyNewVersion_run.
    cbn [net version.StableVersionUrl version.HttpClient http.Timeout
           defaultResolver].
    rewrite He. split; reflexivity.
Qed.

(** C7.  When the tool is not initialized and the Tutorial Finder
    returns an error, the post-hook returns that error; conversely an
    error returned by the post-hook is the Tutorial Finder's, met while
    the tool was not initialized.  An invocation whose pre-hook and
    body went through, and whose post-hook meets that failure, ends
    with that error. *)
Theorem C7_tutorial_finder_error_is_surfaced ro
    (body : list string -> FS -> option error * FS) cmd args w :
  (forall (e : error) (fs' : FS),
      initializedOn ro (fs w) = false ->
      rtutorial.find (rt ro) (fs w) = (Err e, fs') ->
      returned (PostRunFunc ro cmd args w) = Some (Some e))
  /\ (forall e : error,
        returned (PostRunFunc ro cmd args w) = Some (Some e) ->
        initializedOn ro (fs w) = false
        /\ fst (rtutorial.find (rt ro) (fs w)) = Err e)
  /\ (forall (w1 : World FS) (t1 : list Event) (e : error) (f2 f3 : FS),
        PreRunFunc ro cmd args w = Returned None w1 t1 ->
        body args (fs w1) = (None, f2) ->
        initializedOn ro f2 = false ->
        rtutorial.find (rt ro) f2 = (Err e, f3) ->
        returned (Execute ro body cmd args w) = Some (Some e)).
Proof.
  split; [| split].
  - intros e fs' Hinit Hfind. rewrite PostRunFunc_run. cbn zeta.
    now rewrite Hinit, Hfind.
  - intros e. rewrite PostRunFunc_run. cbn zeta.
    destruct (initializedOn ro (fs w)); [discriminate |].
    destruct (fst (rtutorial.find (rt ro) (fs w))) as [h|e'];
      [discriminate |].
    cbn. intros [= ->]. now split.
  - intros w1 t1 e f2 f3 Hpre Hbody Hinit Hfind.
    rewrite Execute_run, Hpre. cbn zeta. rewrite Hbody. cbn [fst snd].
    rewrite PostRunFunc_run. cbn zeta. cbn [fs net].
    now rewrite Hinit, Hfind.
Qed.

(** *** The version flag *)

Lemma versionFlag_run w :
  versionFlag w
  = Returned
      match version.decode (net w StableVersionUrl (1 * time.Second)) with
      | Ok latestVersion =>
          if String.eqb latestVersion Version
          then fmt.Sprintf versionMsg [Version; BuildDate; runtime_Version]
          else fmt.Sprintf versionMsgWithLatestVersion
                 [Version;
                  prompt.Yellow (fmt.Sprintf latestVersionMsg [latestVersion]);
                  BuildDate; runtime_Version]
      | Err _ => fmt.Sprintf versionMsg [Version; BuildDate; runtime_Version]
      end
      w [EvHttpGet StableVersionUrl (1 * time.Second)].
Proof.
  unfold versionFlag. cbv zeta. cbn [bind ret Monad_M]. unfold M_bind.
  rewrite StableVersion_run.
  cbn [version.StableVersionUrl version.HttpClient http.Timeout].
  destruct (version.decode _) as [v|e]; [| reflexivity].
  now destruct (String.eqb v Version).
Qed.

(** The two formats, filled in. *)
Lemma Sprintf_versionMsg (v d r : string) :
  fmt.Sprintf versionMsg [v; d; r]
  = v ++ nl ++ "  Build date: " ++ d ++ nl ++ "  Built with: " ++ r ++ nl.
Proof. reflexivity. Qed.

Lemma Sprintf_versionMsgWithLatestVersion (v l d r : string) :
  fmt.Sprintf versionMsgWithLatestVersion [v; l; d; r]
  = v ++ nl ++ "  " ++ l ++ nl ++ "  Build date: " ++ d ++ nl
      ++ "  Built with: " ++ r ++ nl.
Proof. reflexivity. Qed.

Lemma Sprintf_latestVersionMsg (l : string) :
  fmt.Sprintf latestVersionMsg [l] = "Latest available version: " ++ l.
Proof.
  unfold fmt.Sprintf, latestVersionMsg. cbn. now rewrite append_nil_r.
Qed.

(** C8.  [versionFlag] makes one request, for the stable version, with
    a client whose timeout is one second, and always returns a text.
    When the fetch succeeds with a string other than the running
    version, the text is the format with the notice, filled with the
    fetched version; when the fetch fails, or gives the running version,
    it is the plain format, filled with the build's own data. *)
Theorem C8_version_flag_text w :
  trace (versionFlag w) = [EvHttpGet StableVersionUrl (1 * time.Second)]
  /\ 1 * time.Second = 1000000000 * time.Nanosecond
  /\ world (versionFlag w) = w
  /\ exited (versionFlag w) = None
  /\ (forall latestVersion : string,
        returned (version.StableVersion defaultResolver w)
          = Some (Ok latestVersion) ->
        latestVersion <> Version ->
        returned (versionFlag w)
        = Some (fmt.Sprintf versionMsgWithLatestVersion
                  [Version;
                   prompt.Yellow
                     (fmt.Sprintf latestVersionMsg [latestVersion]);
                   BuildDate; runtime_Version]))
  /\ (returned (version.StableVersion defaultResolver w) = Some (Ok Version) ->
      returned (versionFlag w)
      = Some (fmt.Sprintf versionMsg [Version; BuildDate; runtime_Version]))
  /\ (forall e : error,
        returned (version.StableVersion defaultResolver w) = Some (Err e) ->
        returned (versionFlag w)
        = Some (fmt.Sprintf versionMsg [Version; BuildDate; runtime_Version])).
Proof.
  rewrite versionFlag_run, StableVersion_run.
  cbn [trace world exited returned version.StableVersionUrl
         version.HttpClient http.Timeout defaultResolver].
  repeat split.
  - intros v [= ->] Hne.
    destruct (String.eqb_spec v Version); [contradiction | reflexivity].
  - intros [= ->]. now rewrite String.eqb_refl.
  - intros e [= ->]. reflexivity.
Qed.

(** *** The tutorial banner *)

Lemma PostRunFunc_initialized ro cmd args w :
  initializedOn ro (fs w) = true ->
  PostRunFunc ro cmd args w
  = Returned None w
      (trace (verifyNewVersion cmd w) ++ [EvDirExists (commonsRepoPath ro)]).
Proof.
  intros Hinit. rewrite PostRunFunc_run. cbn zeta. now rewrite Hinit.
Qed.

Lemma verifyNewVersion_quiet cmd w :
  ~ In EvTutorialFind (trace (verifyNewVersion cmd w))
  /\ forall s, ~ In (EvPromptInfo s) (trace (verifyNewVersion cmd w)).
Proof.
  rewrite verifyNewVersion_run. cbn [trace].
  destruct (isWhitelist upgradeWhitelist cmd); (split; [| intros s]);
    absent.
Qed.




End Hooks.

(** ** The hooks on the demonstration disk *)

Import (hints) Demo.

Lemma cmdDelete_not_whitelisted :
  ~ In (cobra.CommandPath Demo.cmdDelete) whitelist.
Proof. absent. Qed.

Lemma cmdDelete_not_completion :
  ~ hasSubstring (cobra.CommandPath Demo.cmdDelete) "__complete".
Proof. intros Hc. apply Contains_iff in Hc. discriminate Hc. Qed.

Lemma cmdDelete_not_exempt : ~ exempt Demo.cmdDelete.
Proof.
  intros [Hw | Hc];
    [now apply cmdDelete_not_whitelisted | now apply cmdDelete_not_completion].
Qed.

Lemma home_plain : Forall plainName ["home"; "dev"; ".rit"].
Proof. repeat constructor; discriminate. Qed.

Lemma C1_witness :
  (In (cobra.CommandPath Demo.cmdInit) whitelist
   \/ hasSubstring (cobra.CommandPath Demo.cmdInit) "__complete")
  /\ PreRunFunc Demo.ro Demo.cmdInit [] (mkWorld Demo.fresh Demo.offline)
     = Returned None
         (mkWorld (snd (Demo.mkdir Demo.home Demo.fresh)) Demo.offline)
         [EvDirCreate Demo.home].
Proof.
  assert (Hex : In (cobra.CommandPath Demo.cmdInit) whitelist
                \/ hasSubstring (cobra.CommandPath Demo.cmdInit) "__complete").
  { left. simpl. tauto. }
  split; [exact Hex |].
  apply (@C1_exempt_command_proceeds Demo.Disk Demo.ro Demo.cmdInit []
           (mkWorld Demo.fresh Demo.offline)
           (snd (Demo.mkdir Demo.home Demo.fresh)) Hex eq_refl).
Defined.

Lemma C2_witness :
  initializedOn Demo.ro (snd (Demo.mkdir Demo.home Demo.fresh)) = false
  /\ exited (Execute Demo.ro Demo.noop Demo.cmdDelete []
               (mkWorld Demo.fresh Demo.offline)) = Some 0.
Proof.
  split; [reflexivity |].
  destruct (@C2_uninitialized_command_is_blocked Demo.Disk _ _ Demo.ro
              Demo.noop Demo.cmdDelete [] (mkWorld Demo.fresh Demo.offline)
              (snd (Demo.mkdir Demo.home Demo.fresh))
              cmdDelete_not_whitelisted cmdDelete_not_completion
              eq_refl eq_refl) as (Hpre & Hexec & _).
  rewrite Hexec, Hpre. reflexivity.
Defined.

(** C2, as the claim states it, fails when the home directory cannot be
    created: the command is not exempt and the marker is absent, yet the
    pre-hook returns the error, prints nothing and does not exit. *)
Lemma C2_counterexample :
  ~ In (cobra.CommandPath Demo.cmdDelete) whitelist
  /\ ~ hasSubstring (cobra.CommandPath Demo.cmdDelete) "__complete"
  /\ initializedOn Demo.ro Demo.readonly = false
  /\ PreRunFunc Demo.ro Demo.cmdDelete [] (mkWorld Demo.readonly Demo.offline)
     = Returned (Some (errorString "mkdir: permission denied"))
         (mkWorld Demo.readonly Demo.offline) [EvDirCreate Demo.home]
  /\ exited (PreRunFunc Demo.ro Demo.cmdDelete []
               (mkWorld Demo.readonly Demo.offline)) <> Some 0
  /\ ~ In (EvPrintln MsgInit)
         (trace (PreRunFunc Demo.ro Demo.cmdDelete []
                   (mkWorld Demo.readonly Demo.offline))).
Proof.
  split; [exact cmdDelete_not_whitelisted |].
  split; [exact cmdDelete_not_completion |].
  split; [reflexivity |]. split; [reflexivity |].
  split; [discriminate | absent].
Qed.

Lemma C3_witness :
  Demo.mkdir Demo.home Demo.readonly
    = (Some (errorString "mkdir: permission denied"), Demo.readonly)
  /\ Execute Demo.ro Demo.noop Demo.cmdRoot []
       (mkWorld Demo.readonly Demo.offline)
     = Returned (Some (errorString "mkdir: permission denied"))
         (mkWorld Demo.readonly Demo.offline) [EvDirCreate Demo.home].
Proof.
  split; [reflexivity |].
  apply (proj2 (@C3_home_directory_comes_first Demo.Disk _ _ Demo.ro
                  Demo.noop Demo.cmdRoot []
                  (mkWorld Demo.readonly Demo.offline))
           (errorString "mkdir: permission denied") Demo.readonly eq_refl).
Defined.

Lemma C4_witness :
  Demo.home = "/" ++ String.concat "/" ["home"; "dev"; ".rit"]
  /\ path.Join [ritchieHome Demo.ro; "repos"; "commons"]
     = ritchieHome Demo.ro ++ "/repos/commons".
Proof.
  split; [reflexivity |].
  apply (proj1 (proj2 (@C4_initialized_iff_marker_exists Demo.Disk Demo.ro
                         (mkWorld Demo.fresh Demo.offline)))
           ["home"; "dev"; ".rit"]);
    [discriminate | exact home_plain | reflexivity].
Defined.

Lemma C5_witness :
  cobra.CommandPath Demo.cmdInit <> cmdUse
  /\ verifyNewVersion Demo.cmdInit (mkWorld Demo.fresh (Demo.publishing "2.0.0"))
     = Returned tt (mkWorld Demo.fresh (Demo.publishing "2.0.0")) []
  /\ cobra.CommandPath Demo.cmdRoot = cmdUse
  /\ In (EvHttpGet StableVersionUrl (1 * time.Second))
        (trace (PostRunFunc Demo.ro Demo.cmdRoot []
                  (mkWorld Demo.fresh (Demo.publishing "2.0.0")))).
Proof.
  assert (Hne : cobra.CommandPath Demo.cmdInit <> cmdUse) by discriminate.
  split; [exact Hne |]. split.
  - apply (proj2 (proj2 (@C5_version_check_on_bare_root_only Demo.Disk _ _
                           Demo.ro Demo.cmdInit []
                           (mkWorld Demo.fresh (Demo.publishing "2.0.0"))))
             Hne).
  - split; [reflexivity |].
    apply (proj1 (proj2 (@C5_version_check_on_bare_root_only Demo.Disk _ _
                           Demo.ro Demo.cmdRoot []
                           (mkWorld Demo.fresh (Demo.publishing "2.0.0"))))
             eq_refl).
Defined.

Lemma C6_witness :
  fetchFails (Demo.offline StableVersionUrl (1 * time.Second))
  /\ fetchFails (Demo.refusing StableVersionUrl (1 * time.Second))
  /\ verifyNewVersion {| cobra.CommandPath := cmdUse |}
       (mkWorld Demo.fresh Demo.offline)
     = Returned tt (mkWorld Demo.fresh Demo.offline)
         [EvHttpGet StableVersionUrl (1 * time.Second);
          EvPromptWarning version.noNotice]
  /\ verifyNewVersion {| cobra.CommandPath := cmdUse |}
       (mkWorld Demo.fresh Demo.refusing)
     = Returned tt (mkWorld Demo.fresh Demo.refusing)
         [EvHttpGet StableVersionUrl (1 * time.Second);
          EvPromptWarning version.noNotice].
Proof.
  assert (Hoff : fetchFails (Demo.offline StableVersionUrl (1 * time.Second)))
    by exact I.
  assert (Hrefuse : fetchFails (Demo.refusing StableVersionUrl (1 * time.Second)))
    by (simpl; lia).
  split; [exact Hoff |]. split; [exact Hrefuse |]. split.
  - apply (proj2 (proj2 (@C6_version_failure_is_not_surfaced Demo.Disk _ _
                           Demo.ro Demo.cmdRoot [] Demo.fresh
                           Demo.offline Demo.refusing)) Hoff).
  - apply (proj2 (proj2 (@C6_version_failure_is_not_surfaced Demo.Disk _ _
                           Demo.ro Demo.cmdRoot [] Demo.fresh
                           Demo.refusing Demo.offline)) Hrefuse).
Defined.

Lemma C7_witness :
  initializedOn Demo.ro Demo.broken = false
  /\ rtutorial.find (rt Demo.ro) Demo.broken
     = (Err (errorString "tutorial.json: unexpected end of input"), Demo.broken)
  /\ returned (PostRunFunc Demo.ro Demo.cmdRoot []
                 (mkWorld Demo.broken Demo.offline))
     = Some (Some (errorString "tutorial.json: unexpected end of input"))
  /\ fst (rtutorial.find (rt Demo.ro) Demo.broken)
     = Err (errorString "tutorial.json: unexpected end of input")
  /\ returned (Execute Demo.ro Demo.noop Demo.cmdRoot []
                 (mkWorld Demo.broken Demo.offline))
     = Some (Some (errorString "tutorial.json: unexpected end of input")).
Proof.
  pose proof (@C7_tutorial_finder_error_is_surfaced Demo.Disk _ _
                Demo.ro Demo.noop Demo.cmdRoot []
                (mkWorld Demo.broken Demo.offline)) as (Hto & Hfrom & Hexec).
  assert (Hpost : returned (PostRunFunc Demo.ro Demo.cmdRoot []
                              (mkWorld Demo.broken Demo.offline))
                  = Some (Some (errorString
                                  "tutorial.json: unexpected end of input")))
    by exact (Hto _ Demo.broken eq_refl eq_refl).
  split; [reflexivity |]. split; [reflexivity |]. split; [exact Hpost |].
  split; [exact (proj2 (Hfrom _ Hpost)) |].
  exact (Hexec (mkWorld Demo.broken Demo.offline) [EvDirCreate Demo.home]
           _ Demo.broken Demo.broken eq_refl eq_refl eq_refl eq_refl).
Defined.

Lemma C8_witness :
  returned (version.StableVersion defaultResolver
              (mkWorld Demo.fresh (Demo.publishing "2.0.0")))
    = Some (Ok "2.0.0")
  /\ "2.0.0" <> Version
  /\ returned (versionFlag (mkWorld Demo.fresh (Demo.publishing "2.0.0")))
     = Some ("dev" ++ nl ++ "  Latest available version: 2.0.0" ++ nl
               ++ "  Build date: unknown" ++ nl ++ "  Built with: go1.14" ++ nl)
  /\ returned (versionFlag (mkWorld Demo.fresh (Demo.publishing "dev")))
     = Some ("dev" ++ nl ++ "  Build date: unknown" ++ nl
               ++ "  Built with: go1.14" ++ nl)
  /\ returned (versionFlag (mkWorld Demo.fresh Demo.refusing))
     = Some ("dev" ++ nl ++ "  Build date: unknown" ++ nl
               ++ "  Built with: go1.14" ++ nl).
Proof.
  assert (Hne : "2.0.0" <> Version) by discriminate.
  split; [reflexivity |]. split; [exact Hne |]. split; [| split].
  - rewrite (proj1 (proj2 (proj2 (proj2 (proj2
               (@C8_version_flag_text Demo.Disk _ _ _
                  (mkWorld Demo.fresh (Demo.publishing "2.0.0")))))))
               "2.0.0" eq_refl Hne).
    reflexivity.
  - assert (Hsame : returned (version.StableVersion defaultResolver
                                 (mkWorld Demo.fresh (Demo.publishing "dev")))
                     = Some (Ok Version))
      by reflexivity.
    rewrite (proj1 (proj2 (proj2 (proj2 (proj2 (proj2
               (@C8_version_flag_text Demo.Disk _ _ _
                  (mkWorld Demo.fresh (Demo.publishing "dev"))))))))
               Hsame).
    reflexivity.
  - assert (Herr : returned (version.StableVersion defaultResolver
                                (mkWorld Demo.fresh Demo.refusing))
                    = Some (Err (version.statusError 503)))
      by reflexivity.
    rewrite (proj2 (proj2 (proj2 (proj2 (proj2 (proj2
               (@C8_version_flag_text Demo.Disk _ _ _
                  (mkWorld Demo.fresh Demo.refusing)))))))
               _ Herr).
    reflexivity.
Defined.




(** ** Runs *)

Example Clean_examples :
  map path.Clean
    ["a/c"; "a//c"; "a/c/."; "a/c/b/.."; "/../a/c"; "/../a/b/../././/c";
     ""; "/"; "../../x"; "a/../.."; "./"]
  = ["a/c"; "a/c"; "a/c"; "a/c"; "/a/c"; "/a/c";
     "."; "/"; "../../x"; ".."; "."].
Proof. reflexivity. Qed.

Example Join_examples :
  map path.Join
    [["a"; "b"; "c"]; ["a"; "b/c"]; ["a/b"; "../../../xyz"]; [""; ""];
     ["a"; ""]; [""; "a"]; ["/home/dev/.rit/"; "repos"; "commons"]]
  = ["a/b/c"; "a/b/c"; "../xyz"; ""; "a"; "a";
     "/home/dev/.rit/repos/commons"].
Proof. reflexivity. Qed.

Example TrimSpace_example :
  strings.TrimSpace ("  2.0.0 " ++ nl) = "2.0.0".
Proof. reflexivity. Qed.

(** A command below the root on a fresh disk: the home directory is
    created, the init instruction printed, the process ended with status
    0, and the body not run. *)
Example run_uninitialized :
  Execute Demo.ro Demo.noop Demo.cmdDelete [] (mkWorld Demo.fresh Demo.offline)
  = Exited 0
      (mkWorld {| Demo.dirs := ["/home/dev/.rit"; "/home/dev"];
                  Demo.writable := true; Demo.tutorial := Ok "on" |}
         Demo.offline)
      [EvDirCreate "/home/dev/.rit";
       EvDirExists "/home/dev/.rit/repos/commons";
       EvPrintln MsgInit].
Proof. reflexivity. Qed.

(** [rit init] on a fresh disk goes to its body, and the post-hook shows
    the tutorial banner. *)
Example run_init :
  trace (Execute Demo.ro Demo.noop Demo.cmdInit []
           (mkWorld Demo.fresh Demo.offline))
  = ([EvDirCreate "/home/dev/.rit"; EvRun "rit init";
      EvDirExists "/home/dev/.rit/repos/commons"; EvTutorialFind]
       ++ tutorialBanner)%list.
Proof. reflexivity. Qed.

(** The bare root command, initialized, with a newer stable version
    published: the warning carries the notice. *)
Example run_root_with_notice :
  trace (Execute Demo.ro Demo.noop Demo.cmdRoot []
           (mkWorld Demo.initialized (Demo.publishing "2.0.0")))
  = [EvDirCreate "/home/dev/.rit"; EvRun "rit";
     EvHttpGet StableVersionUrl 1000000000;
     EvPromptWarning "Please update rit to version 2.0.0";
     EvDirExists "/home/dev/.rit/repos/commons"].
Proof. reflexivity. Qed.

(** A completion query on a fresh disk goes to its body without the
    gate. *)
Example run_completion :
  PreRunFunc Demo.ro Demo.cmdComplete [] (mkWorld Demo.fresh Demo.offline)
  = Returned None
      (mkWorld (snd (Demo.mkdir Demo.home Demo.fresh)) Demo.offline)
      [EvDirCreate "/home/dev/.rit"].
Proof. reflexivity. Qed.

(** ** More on the marker's path *)

Lemma split_app (a b : string) :
  path.split (a ++ "/" ++ b) = (path.split a ++ path.split b)%list.
Proof.
  induction a as [|c a IH]; [reflexivity |].
  simpl in *. destruct (Ascii.eqb c "/").
  - now rewrite IH.
  - rewrite IH. destruct (path.split a) as [|x xs] eqn:Hs.
    + now destruct (split_nonempty a).
    + reflexivity.
Qed.

Lemma walk_app (r : bool) (a b out : list string) :
  path.walk r out (a ++ b)%list = path.walk r (path.walk r out a) b.
Proof.
  revert out. induction a as [|x a IH]; intros out; [reflexivity |].
  simpl.
  destruct (String.eqb x ""); [apply IH |].
  destruct (String.eqb x "."); [apply IH |].
  destruct (String.eqb x "..").
  - destruct out as [|top out']; [destruct r; apply IH |].
    destruct (String.eqb top ".."); apply IH.
  - apply IH.
Qed.

Lemma rooted_append (h x : string) :
  h <> "" -> path.rooted (h ++ x) = path.rooted h.
Proof. destruct h; [contradiction | reflexivity]. Qed.

Lemma append_nonempty (h x : string) :
  h <> "" -> String.eqb (h ++ x) "" = false.
Proof. destruct h; [contradiction | reflexivity]. Qed.

(** A doubled slash after a directory is of no account. *)
Lemma Clean_double_slash (h rest : string) :
  h <> "" ->
  path.Clean (h ++ "/" ++ "/" ++ rest) = path.Clean (h ++ "/" ++ rest).
Proof.
  intros Hne. unfold path.Clean.
  rewrite !append_nonempty, !rooted_append by assumption.
  rewrite (split_app h ("/" ++ rest)), (split_app h rest), !walk_app.
  reflexivity.
Qed.

Lemma concat_snoc2 (l : list string) (x y : string) :
  String.concat "/" (l ++ [x; y])%list
  = match l with
    | [] => x ++ "/" ++ y
    | _ :: _ => String.concat "/" l ++ "/" ++ x ++ "/" ++ y
    end.
Proof.
  destruct l as [|z l]; [reflexivity |].
  now rewrite concat_app by discriminate.
Qed.

Section Marker.

Context {FS : Type}.

Implicit Types (ro : rootCmd (FS:=FS)).

(** X8.  Whatever the home directory (empty, relative, with [.] or [..]
    elements, with doubled or trailing slashes), the path that
    [ritchieIsInitialized] asks the directory checker about ends with the
    two elements [repos/commons], and what comes before is empty or ends
    with a slash. *)
Theorem X8_marker_path_ends_with_repos_commons ro :
  exists pre : string,
    commonsRepoPath ro = pre ++ "repos/commons"
    /\ (pre = "" \/ exists q, pre = q ++ "/").
Proof.
  unfold commonsRepoPath. destruct (ritchieHome ro) as [|c h] eqn:Hhome.
  - exists "". split; [reflexivity | now left].
  - assert (Hne : String c h <> "") by discriminate.
    change (path.Join [String c h; "repos"; "commons"])
      with (path.Clean (String c h ++ "/" ++ "repos/commons")).
    unfold path.Clean.
    rewrite append_nonempty, rooted_append by assumption.
    rewrite split_app, walk_app.
    change (path.split "repos/commons") with ["repos"; "commons"].
    set (S := path.walk (path.rooted (String c h)) [] (path.split (String c h))).
    change (path.walk (path.rooted (String c h)) S ["repos"; "commons"])
      with ("commons" :: "repos" :: S).
    change (rev ("commons" :: "repos" :: S))
      with ((rev S ++ ["repos"]) ++ ["commons"])%list.
    rewrite <- app_assoc. change (["repos"] ++ ["commons"])%list
      with ["repos"; "commons"].
    rewrite concat_snoc2.
    destruct (rev S) as [|z l].
    + destruct (path.rooted (String c h)).
      * exists "/". split; [reflexivity | right; now exists ""].
      * exists "". split; [reflexivity | now left].
    + set (body := String.concat "/" (z :: l)).
      destruct (path.rooted (String c h)).
      * exists ("/" ++ body ++ "/"). split.
        -- now rewrite !append_assoc.
        -- right. exists ("/" ++ body). now rewrite append_assoc.
      * assert (Hbody : ((body ++ "/" ++ "repos" ++ "/" ++ "commons") =? "")%string
                        = false).
        { destruct body; reflexivity. }
        rewrite Hbody. exists (body ++ "/"). split.
        -- now rewrite !append_assoc.
        -- right. now exists body.
Qed.

(** X9.  A trailing slash on a non-empty home directory changes nothing:
    the marker's path, and so the outcome of [ritchieIsInitialized], is
    the same.  The empty home directory is the exception, where the
    marker's path is relative, while that of [/] is rooted. *)
Theorem X9_trailing_slash_on_home (d : stream.DirCreateChecker FS)
    (r : rtutorial.Finder FS) (home : string) (w : World FS) :
  home <> "" ->
  ritchieIsInitialized {| ritchieHome := home ++ "/"; dir := d; rt := r |} w
    = ritchieIsInitialized {| ritchieHome := home; dir := d; rt := r |} w
  /\ commonsRepoPath {| ritchieHome := ""; dir := d; rt := r |}
     = "repos/commons"
  /\ commonsRepoPath {| ritchieHome := "/"; dir := d; rt := r |}
     = "/repos/commons".
Proof.
  intros Hne. split; [| split; reflexivity].
  unfold ritchieIsInitialized. cbn [ritchieHome dir].
  assert (Hpath : path.Join [home ++ "/"; "repos"; "commons"]
                  = path.Join [home; "repos"; "commons"]).
  { destruct home as [|c h]; [contradiction |].
    change (path.Join [String c h ++ "/"; "repos"; "commons"])
      with (path.Clean ((String c h ++ "/") ++ "/" ++ "repos/commons")).
    change (path.Join [String c h; "repos"; "commons"])
      with (path.Clean (String c h ++ "/" ++ "repos/commons")).
    rewrite append_assoc. now apply Clean_double_slash. }
  now rewrite Hpath.
Qed.

End Marker.

Lemma X9_witness :
  Demo.home <> ""
  /\ ritchieIsInitialized
       {| ritchieHome := Demo.home ++ "/"; dir := Demo.DirManager;
          rt := Demo.TutorialFinder |}
       (mkWorld Demo.initialized Demo.offline)
     = Returned true (mkWorld Demo.initialized Demo.offline)
         [EvDirExists "/home/dev/.rit/repos/commons"].
Proof.
  assert (Hne : Demo.home <> "") by discriminate.
  split; [exact Hne |].
  rewrite (proj1 (@X9_trailing_slash_on_home Demo.Disk Demo.DirManager
                    Demo.TutorialFinder Demo.home
                    (mkWorld Demo.initialized Demo.offline) Hne)).
  reflexivity.
Defined.

(** ** More on the hooks *)

Section Coverage.

Context {FS : Type} `{Build} `{prompt.Colors} `{version.Messages}.

Implicit Types (ro : rootCmd (FS:=FS)) (cmd : cobra.Command)
  (args : list string) (w : World FS).

(** X1.  When the home directory is ensured and the marker is there, the
    pre-hook lets every command through: it returns [nil], without
    printing and without exiting.  For a command that is not exempt it
    has asked the directory checker once. *)
Theorem X1_initialized_tool_passes_the_gate ro cmd args w (fs' : FS) :
  stream.create (dir ro) (ritchieHome ro) (fs w) = (None, fs') ->
  initializedOn ro fs' = true ->
  returned (PreRunFunc ro cmd args w) = Some None
  /\ world (PreRunFunc ro cmd args w) = mkWorld fs' (net w)
  /\ (forall s, ~ In (EvPrintln s) (trace (PreRunFunc ro cmd args w)))
  /\ (~ exempt cmd ->
      PreRunFunc ro cmd args w
      = Returned None (mkWorld fs' (net w))
          [EvDirCreate (ritchieHome ro); EvDirExists (commonsRepoPath ro)]).
Proof.
  intros Hcreate Hinit. rewrite PreRunFunc_run. cbn zeta.
  rewrite Hcreate. cbn [fst snd fs]. rewrite Hinit.
  destruct (isWhitelist whitelist cmd || isCompleteCmd cmd)%bool eqn:Hex;
    cbn [returned world trace].
  - repeat split; try (intros s; absent).
    intros Hn. apply exempt_iff in Hex. contradiction.
  - repeat split. intros s; absent.
Qed.

(** X2.  What the pre-hook can do at all: its events are the creation of
    the home directory, the query for the marker and the print of the
    init instruction, nothing else (no request, no call of the Tutorial
    Finder, no warning); the file system it leaves is the one the
    creation left; and when it ends the process the status is 0. *)
Theorem X2_pre_hook_footprint ro cmd args w :
  (forall ev, In ev (trace (PreRunFunc ro cmd args w)) ->
     ev = EvDirCreate (ritchieHome ro)
     \/ ev = EvDirExists (commonsRepoPath ro)
     \/ ev = EvPrintln MsgInit)
  /\ world (PreRunFunc ro cmd args w)
     = mkWorld (snd (stream.create (dir ro) (ritchieHome ro) (fs w))) (net w)
  /\ (forall c, exited (PreRunFunc ro cmd args w) = Some c -> c = 0).
Proof.
  rewrite PreRunFunc_run. cbn zeta.
  destruct (fst (stream.create (dir ro) (ritchieHome ro) (fs w))).
  { cbn. repeat split; [intros ev [<- | []]; now left | discriminate]. }
  destruct (isWhitelist whitelist cmd || isCompleteCmd cmd)%bool.
  { cbn. repeat split; [intros ev [<- | []]; now left | discriminate]. }
  destruct (initializedOn ro _); cbn [trace world exited].
  - repeat split; [| discriminate].
    intros ev [<- | [<- | []]]; tauto.
  - repeat split; [| now intros c [= <-]].
    intros ev [<- | [<- | [<- | []]]]; tauto.
Qed.

(** X3.  The three outcomes of the pre-hook, each with the condition
    under which it happens.  It returns an error exactly when the
    creation of the home directory failed, and then that error; it
    returns [nil] exactly when the creation succeeded and the command is
    exempt or the marker is there; it ends the process exactly when the
    creation succeeded, the command is not exempt and the marker is
    absent. *)
Theorem X3_pre_hook_outcomes ro cmd args w :
  (forall e : error,
     returned (PreRunFunc ro cmd args w) = Some (Some e)
     <-> fst (stream.create (dir ro) (ritchieHome ro) (fs w)) = Some e)
  /\ (returned (PreRunFunc ro cmd args w) = Some None
      <-> fst (stream.create (dir ro) (ritchieHome ro) (fs w)) = None
          /\ (exempt cmd
              \/ initializedOn ro
                   (snd (stream.create (dir ro) (ritchieHome ro) (fs w)))
                 = true))
  /\ (exited (PreRunFunc ro cmd args w) <> None
      <-> fst (stream.create (dir ro) (ritchieHome ro) (fs w)) = None
          /\ ~ exempt cmd
          /\ initializedOn ro
               (snd (stream.create (dir ro) (ritchieHome ro) (fs w)))
             = false).
Proof.
  rewrite PreRunFunc_run. cbn zeta.
  destruct (fst (stream.create (dir ro) (ritchieHome ro) (fs w))) as [e0|].
  { cbn. repeat split; try congruence; try tauto.
    - intros [Hd _]; discriminate.
    - intros [Hd _]; discriminate. }
  destruct (isWhitelist whitelist cmd || isCompleteCmd cmd)%bool eqn:Hex.
  { apply exempt_iff in Hex. cbn.
    repeat split; try congruence; try tauto. }
  apply not_exempt_iff in Hex. cbn [fs].
  destruct (initializedOn ro _); cbn.
  - repeat split; try congruence; try tauto.
    intros (_ & _ & Hd); discriminate.
  - repeat split; try congruence; try tauto.
    intros [_ [Hd | Hd]]; [contradiction | discriminate].
Qed.

Lemma verifyNewVersion_events cmd w (ev : Event) :
  In ev (trace (verifyNewVersion cmd w)) ->
  ev = EvHttpGet StableVersionUrl (1 * time.Second)
  \/ exists s, ev = EvPromptWarning s.
Proof.
  rewrite verifyNewVersion_run. cbn [trace].
  destruct (isWhitelist upgradeWhitelist cmd); [| intros []].
  intros [<- | [<- | []]]; [now left | right; eauto].
Qed.

(** X4.  What the post-hook can do at all: its events are the request
    for the stable version, a warning, the query for the marker, the
    call of the Tutorial Finder and the lines of the banner, nothing else
    (it creates no directory); it leaves the network alone; the file
    system is untouched when the tool is initialized, and otherwise is
    what the Tutorial Finder left.  On an initialized tool it returns
    [nil] whatever the Tutorial Finder would have answered. *)
Theorem X4_post_hook_footprint ro cmd args w :
  (forall ev, In ev (trace (PostRunFunc ro cmd args w)) ->
     ev = EvHttpGet StableVersionUrl (1 * time.Second)
     \/ (exists s, ev = EvPromptWarning s)
     \/ ev = EvDirExists (commonsRepoPath ro)
     \/ ev = EvTutorialFind
     \/ In ev tutorialBanner)
  /\ net (world (PostRunFunc ro cmd args w)) = net w
  /\ fs (world (PostRunFunc ro cmd args w))
     = (if initializedOn ro (fs w) then fs w
        else snd (rtutorial.find (rt ro) (fs w)))
  /\ (initializedOn ro (fs w) = true ->
      returned (PostRunFunc ro cmd args w) = Some None).
Proof.
  rewrite PostRunFunc_run. cbn zeta.
  destruct (initializedOn ro (fs w)).
  - cbn [trace world returned]. repeat split.
    intros ev Hin. apply in_app_or in Hin. destruct Hin as [Hin | Hin].
    + apply verifyNewVersion_events in Hin. tauto.
    + destruct Hin as [<- | []]. tauto.
  - destruct (fst (rtutorial.find (rt ro) (fs w))) as [h|e];
      cbn [trace world returned fs net]; (repeat split; try discriminate);
      intros ev Hin; apply in_app_or in Hin; destruct Hin as [Hin | Hin];
      try (apply verifyNewVersion_events in Hin; tauto).
    + destruct Hin as [<- | [<- | Hin]]; [tauto | tauto |].
      destruct (String.eqb (rtutorial.Current h) tutorialStatusOn);
        [tauto | destruct Hin].
    + destruct Hin as [<- | [<- | []]]; tauto.
Qed.

(** X5.  The banner is shown exactly when the tool is not initialized
    and the Tutorial Finder answers, without error, the status that
    stands for on; the post-hook's trace then ends with the three lines
    of the banner, and it returns [nil]. *)
Theorem X5_banner_iff_tutorial_on ro cmd args w :
  (In (EvPromptInfo (nl ++ "[TUTORIAL]")) (trace (PostRunFunc ro cmd args w))
   <-> initializedOn ro (fs w) = false
       /\ exists h, fst (rtutorial.find (rt ro) (fs w)) = Ok h
                    /\ rtutorial.Current h = tutorialStatusOn)
  /\ (In (EvPromptInfo (nl ++ "[TUTORIAL]")) (trace (PostRunFunc ro cmd args w)) ->
      returned (PostRunFunc ro cmd args w) = Some None
      /\ exists before,
           trace (PostRunFunc ro cmd args w) = (before ++ tutorialBanner)%list).
Proof.
  assert (Hquiet : forall tail,
             In (EvPromptInfo (nl ++ "[TUTORIAL]"))
                (trace (verifyNewVersion cmd w) ++ tail) ->
             In (EvPromptInfo (nl ++ "[TUTORIAL]")) tail).
  { intros tail Hin. apply in_app_or in Hin. destruct Hin as [Hin | Hin];
      [| assumption].
    now apply verifyNewVersion_quiet in Hin. }
  rewrite PostRunFunc_run. cbn zeta.
  destruct (initializedOn ro (fs w)); cbn [trace returned].
  { split.
    - split; [| intros [Hd _]; discriminate].
      intros Hin. apply Hquiet in Hin. exfalso. revert Hin. absent.
    - intros Hin. apply Hquiet in Hin. exfalso. revert Hin. absent. }
  destruct (fst (rtutorial.find (rt ro) (fs w))) as [h|e];
    cbn [trace returned].
  2:{ split.
      - split; [| intros [_ (h & Hd & _)]; discriminate].
        intros Hin. apply Hquiet in Hin. exfalso. revert Hin. absent.
      - intros Hin. apply Hquiet in Hin. exfalso. revert Hin. absent. }
  destruct (String.eqb_spec (rtutorial.Current h) tutorialStatusOn) as [Hon|Hoff].
  - split.
    + split; [intros _; split; [reflexivity | now exists h] |].
      intros _. apply in_or_app. right. simpl. tauto.
    + intros _. split; [reflexivity |].
      exists (trace (verifyNewVersion cmd w)
                ++ [EvDirExists (commonsRepoPath ro); EvTutorialFind])%list.
      now rewrite <- app_assoc.
  - split.
    + split.
      * intros Hin. apply Hquiet in Hin. exfalso. revert Hin. absent.
      * intros [_ (h' & [= <-] & Hon)]. contradiction.
    + intros Hin. apply Hquiet in Hin. exfalso. revert Hin. absent.
Qed.

(** X6.  [verifyNewVersion] never changes the world and never ends the
    process.  For the bare root command it makes the request and then
    prints one warning, whatever the network answers: the notice for the
    fetched version when the fetch gives a version other than the
    running one, and the message without notice (also a warning line)
    when the fetch gives the running version or fails. *)
Theorem X6_root_always_warns_once cmd w :
  world (verifyNewVersion cmd w) = w
  /\ exited (verifyNewVersion cmd w) = None
  /\ (exists msg : string,
        verifyNewVersion {| cobra.CommandPath := cmdUse |} w
        = Returned tt w
            [EvHttpGet StableVersionUrl (1 * time.Second);
             EvPromptWarning msg])
  /\ (forall stable : string,
        returned (version.StableVersion defaultResolver w) = Some (Ok stable) ->
        stable <> Version ->
        verifyNewVersion {| cobra.CommandPath := cmdUse |} w
        = Returned tt w
            [EvHttpGet StableVersionUrl (1 * time.Second);
             EvPromptWarning (version.notice stable)])
  /\ (returned (version.StableVersion defaultResolver w) = Some (Ok Version) ->
      verifyNewVersion {| cobra.CommandPath := cmdUse |} w
      = Returned tt w
          [EvHttpGet StableVersionUrl (1 * time.Second);
           EvPromptWarning version.noNotice])
  /\ (forall e : error,
        returned (version.StableVersion defaultResolver w) = Some (Err e) ->
        verifyNewVersion {| cobra.CommandPath := cmdUse |} w
        = Returned tt w
            [EvHttpGet StableVersionUrl (1 * time.Second);
             EvPromptWarning version.noNotice]).
Proof.
  rewrite !verifyNewVersion_run, StableVersion_run.
  cbn [world exited returned version.StableVersionUrl version.HttpClient
         http.Timeout defaultResolver].
  assert (Hroot : isWhitelist upgradeWhitelist {| cobra.CommandPath := cmdUse |}
                  = true) by reflexivity.
  rewrite Hroot.
  split; [reflexivity |]. split; [reflexivity |].
  split; [eexists; reflexivity |]. split; [| split].
  - intros stable [= ->] Hne.
    destruct (String.eqb_spec Version stable) as [Heq|_];
      [now elim Hne | reflexivity].
  - intros [= ->]. now rewrite String.eqb_refl.
  - intros e [= ->]. reflexivity.
Qed.

(** X7.  Every path of the upgrade whitelist is in the init-whitelist:
    a command that gets the version check is exempt from the gate.  So
    the post-hook of a command that is not exempt makes no request and
    prints no warning. *)
Theorem X7_version_check_only_for_exempt_commands ro cmd args w :
  (isWhitelist upgradeWhitelist cmd = true -> isWhitelist whitelist cmd = true)
  /\ (~ exempt cmd ->
      verifyNewVersion cmd w = Returned tt w []
      /\ (forall url t,
            ~ In (EvHttpGet url t) (trace (PostRunFunc ro cmd args w)))
      /\ (forall s,
            ~ In (EvPromptWarning s) (trace (PostRunFunc ro cmd args w)))).
Proof.
  assert (Hsub : isWhitelist upgradeWhitelist cmd = true ->
                 isWhitelist whitelist cmd = true).
  { intros Hup. apply upgradeWhitelist_iff in Hup.
    apply isWhitelist_iff. rewrite Hup. now left. }
  split; [exact Hsub |].
  intros Hex.
  assert (Hne : cobra.CommandPath cmd <> cmdUse).
  { intros Heq. apply Hex. left. rewrite Heq. now left. }
  split; [now apply no_version_check |].
  rewrite PostRunFunc_run. cbn zeta.
  rewrite no_version_check by assumption. cbn [trace app].
  destruct (initializedOn ro (fs w)); [split; intros x; [intros t |]; absent |].
  destruct (fst (rtutorial.find (rt ro) (fs w))) as [h|e];
    [| split; intros x; [intros t |]; absent].
  destruct (String.eqb (rtutorial.Current h) tutorialStatusOn);
    split; intros x; [intros t | | intros t |]; absent.
Qed.

(** X10.  For a command that is not exempt, on an initialized tool, the
    post-hook is silent: it asks for the marker once, prints nothing,
    requests nothing, leaves the world as it was and returns [nil]. *)
Theorem X10_post_hook_silent_for_gated_command ro cmd args w :
  ~ exempt cmd ->
  initializedOn ro (fs w) = true ->
  PostRunFunc ro cmd args w
  = Returned None w [EvDirExists (commonsRepoPath ro)].
Proof.
  intros Hex Hinit.
  assert (Hne : cobra.CommandPath cmd <> cmdUse).
  { intros Heq. apply Hex. left. rewrite Heq. now left. }
  rewrite PostRunFunc_initialized by assumption.
  now rewrite no_version_check by assumption.
Qed.

(** X11.  Whatever the network answers, the text of the version flag
    begins with the running version on a line of its own and ends with
    the build date and the Go version.  Between the two there is
    nothing when the fetch gives the running version or fails, and the
    one line of the notice, with the fetched version, when the fetch
    gives a version other than the running one. *)
Theorem X11_version_flag_frame w :
  exists middle : string,
    returned (versionFlag w)
    = Some (Version ++ nl ++ middle ++ "  Build date: " ++ BuildDate ++ nl
              ++ "  Built with: " ++ runtime_Version ++ nl)
    /\ ((middle = ""
         /\ (returned (version.StableVersion defaultResolver w)
               = Some (Ok Version)
             \/ exists e, returned (version.StableVersion defaultResolver w)
                            = Some (Err e)))
        \/ exists latestVersion,
             returned (version.StableVersion defaultResolver w)
               = Some (Ok latestVersion)
             /\ latestVersion <> Version
             /\ middle = "  " ++ prompt.Yellow ("Latest available version: "
                                                 ++ latestVersion) ++ nl).
Proof.
  rewrite versionFlag_run, StableVersion_run.
  cbn [returned version.StableVersionUrl version.HttpClient http.Timeout
         defaultResolver].
  destruct (version.decode _) as [v|e].
  - destruct (String.eqb_spec v Version) as [Heq|Hne].
    + exists "". split; [now rewrite Sprintf_versionMsg |].
      left. split; [reflexivity | left; now rewrite Heq].
    + eexists. split;
        [| right; exists v; split; [reflexivity | split; [exact Hne | reflexivity]]].
      rewrite Sprintf_versionMsgWithLatestVersion, Sprintf_latestVersionMsg.
      now rewrite !append_assoc.
  - exists "". split; [now rewrite Sprintf_versionMsg |].
    left. split; [reflexivity | right; now exists e].
Qed.

(** X14.  The whitelist is matched whole: a path that continues a
    whitelisted path other than the bare root (a subcommand of [init],
    say, or the same words with a trailing space) is not whitelisted. *)
Theorem X14_whitelist_has_no_prefix_matching (p s : string) :
  In p whitelist ->
  p <> cmdUse ->
  s <> "" ->
  isWhitelist whitelist {| cobra.CommandPath := p ++ s |} = false.
Proof.
  intros Hin Hroot Hs.
  destruct (isWhitelist whitelist {| cobra.CommandPath := p ++ s |}) eqn:Hw;
    [| reflexivity].
  exfalso. apply isWhitelist_iff in Hw. cbn [cobra.CommandPath] in Hw.
  simpl in Hin. unfold fmt.Sprint in Hin.
  repeat (destruct Hin as [Hin | Hin];
          [subst p; try (now elim Hroot);
           simpl in Hw; unfold fmt.Sprint in Hw;
           repeat (destruct Hw as [Hw | Hw];
                   [first [discriminate Hw
                          | injection Hw as Hw; now elim Hs] |]);
           exact Hw |]).
  exact Hin.
Qed.

End Coverage.

Lemma X1_witness :
  initializedOn Demo.ro (snd (Demo.mkdir Demo.home Demo.initialized)) = true
  /\ PreRunFunc Demo.ro Demo.cmdDelete []
       (mkWorld Demo.initialized Demo.offline)
     = Returned None (mkWorld Demo.initialized Demo.offline)
         [EvDirCreate Demo.home; EvDirExists (commonsRepoPath Demo.ro)].
Proof.
  split; [reflexivity |].
  apply (proj2 (proj2 (proj2
           (@X1_initialized_tool_passes_the_gate Demo.Disk Demo.ro
              Demo.cmdDelete [] (mkWorld Demo.initialized Demo.offline)
              Demo.initialized eq_refl eq_refl)))
           cmdDelete_not_exempt).
Defined.

Lemma X10_witness :
  ~ exempt Demo.cmdDelete
  /\ initializedOn Demo.ro Demo.initialized = true
  /\ PostRunFunc Demo.ro Demo.cmdDelete []
       (mkWorld Demo.initialized (Demo.publishing "2.0.0"))
     = Returned None (mkWorld Demo.initialized (Demo.publishing "2.0.0"))
         [EvDirExists (commonsRepoPath Demo.ro)].
Proof.
  split; [exact cmdDelete_not_exempt |]. split; [reflexivity |].
  apply (@X10_post_hook_silent_for_gated_command Demo.Disk _ _ Demo.ro
           Demo.cmdDelete [] (mkWorld Demo.initialized (Demo.publishing "2.0.0"))
           cmdDelete_not_exempt eq_refl).
Defined.

Lemma X14_witness :
  In "rit init" whitelist
  /\ isWhitelist whitelist {| cobra.CommandPath := "rit init" ++ " formula" |}
     = false.
Proof.
  assert (Hin : In "rit init" whitelist) by (simpl; tauto).
  split; [exact Hin |].
  apply (@X14_whitelist_has_no_prefix_matching "rit init" " formula" Hin);
    discriminate.
Defined.
